(** * cloudantic: the DynamoDB object-document mapper (schema/odm.py)

    A shallow embedding of [DynamoDB] and [DynaModel] from
    [cloudantic/schema/odm.py]: key derivation ([pk_], [sk_]), the shared
    table name, the key-condition builder of [query], model construction and
    the table life cycle.

    Conventions.
    - Python [str] is [string]; comparison of [str] is lexicographic on code
      points, which on UTF-8 bytes is [String.compare].
    - A Python [dict] with string keys is a [gmap string _].
    - A raised exception is the [Raise] case of [result]; store calls thread
      an explicit state that also records every request sent to the store. *)

From Stdlib Require Import ZArith String Ascii List.
From stdpp Require Import base gmap strings list sorting pretty.

Open Scope string_scope.

(** ** Python values and exceptions *)

(** The values a model attribute (or a [Field] keyword) can hold.  [VEnum]
    is a member of an [enum.Enum] class: [member] is what [str] prints for
    it (["Color.RED"]), [value] is its [.value].  [VObject] stands for any
    other object (a [datetime], a [UUID]), known by what [str] returns. *)
Inductive pyval : Type :=
| VNone
| VBool (b : bool)
| VInt (z : Z)
| VStr (s : string)
| VEnum (member : string) (value : pyval)
| VObject (str_ : string).

#[global] Instance pyval_eq_dec : EqDecision pyval.
Proof.
  intros x; induction x; intros []; try (right; discriminate);
    try (left; reflexivity).
  - destruct (decide (b = b0)); [left | right]; congruence.
  - destruct (decide (z = z0)); [left | right]; congruence.
  - destruct (decide (s = s0)); [left | right]; congruence.
  - destruct (decide (member = member0)), (IHx value); [left | right ..];
      congruence.
  - destruct (decide (str_ = str_0)); [left | right]; congruence.
Defined.

(** [str(v)]. *)
Definition py_str (v : pyval) : string :=
  match v with
  | VNone => "None"
  | VBool true => "True"
  | VBool false => "False"
  | VInt z => pretty z
  | VStr s => s
  | VEnum member _ => member
  | VObject s => s
  end.

(** Truth value of [v] in [if v:]. *)
Definition truthy (v : pyval) : bool :=
  match v with
  | VNone => false
  | VBool b => b
  | VInt z => negb (z =? 0)%Z
  | VStr s => negb (String.eqb s "")
  | VEnum _ _ => true
  | VObject _ => true
  end.

(** [key.value if isinstance(key, Enum) else key]. *)
Definition enum_value (key : pyval) : pyval :=
  match key with
  | VEnum _ value => value
  | _ => key
  end.

(** The exceptions the module raises or lets through.  [ValueError] is what
    the code raises for a missing key field (["No partition key found"],
    ["No sort key found"]), for an operator it does not translate
    (["Invalid sort key"]) and for a tuple unpacking of the wrong length.
    [ClientError] and [WaiterError] are botocore's. *)
Inductive exn : Type :=
| ValueError (msg : string)
| AttributeError (attr : string)
| KeyError (key : string)
| TypeError (msg : string)
| ClientError (code : string)
| WaiterError (msg : string).

Inductive result (A : Type) : Type :=
| Ok (a : A)
| Raise (e : exn).
Arguments Ok {A} a.
Arguments Raise {A} e.

#[global] Instance result_ret : MRet result := fun A a => Ok a.

#[global] Instance result_bind : MBind result := fun A B k r =>
  match r with
  | Ok a => k a
  | Raise e => Raise e
  end.

Definition is_ok {A} (r : result A) : bool :=
  match r with Ok _ => true | Raise _ => false end.

(** ** Model classes and instances *)

(** A pydantic [ModelField]: [field.name] and [field.field_info.extra], the
    extra keywords given to [Field(...)] such as [pk=True]. *)
Record ModelField : Type := {
  name : string;
  extra : gmap string pyval
}.

(** A subclass of [DynaModel]: [cls.__name__] and [cls.__fields__.values()]
    in declaration order. *)
Record ModelClass : Type := {
  __name__ : string;
  __fields__ : list ModelField
}.

(** An instance: its class and its attribute dictionary. *)
Record DynaModel : Type := {
  __class__ : ModelClass;
  __dict__ : gmap string pyval
}.

(** [getattr(self, name)]. *)
Definition getattr (self : DynaModel) (attr : string) : result pyval :=
  match __dict__ self !! attr with
  | Some v => Ok v
  | None => Raise (AttributeError attr)
  end.

(** [self.attr = v]. *)
Definition setattr (self : DynaModel) (attr : string) (v : pyval) : DynaModel :=
  {| __class__ := __class__ self; __dict__ := <[attr := v]> (__dict__ self) |}.

(** [field.field_info.extra.get(flag)] taken as a condition. *)
Definition extra_flag (flag : string) (field : ModelField) : bool :=
  match extra field !! flag with
  | Some v => truthy v
  | None => false
  end.

(** ** Key derivation *)

(** The loop of [DynaModel.pk_] over the remaining fields. *)
Fixpoint pk_loop (self : DynaModel) (fields : list ModelField) : result string :=
  match fields with
  | [] => Raise (ValueError "No partition key found")
  | field :: rest =>
      if extra_flag "pk" field then
        key ← getattr self (name field);
        Ok (__name__ (__class__ self) +:+ "#" +:+ py_str (enum_value key))
      else pk_loop self rest
  end.

Definition pk_ (self : DynaModel) : result string :=
  pk_loop self (__fields__ (__class__ self)).

(** The loop of [DynaModel.sk_]: [keys] is the list built so far. *)
Fixpoint sk_loop (self : DynaModel) (fields : list ModelField)
    (keys : list string) : result (list string) :=
  match fields with
  | [] => Ok keys
  | field :: rest =>
      if extra_flag "sk" field then
        key ← getattr self (name field);
        sk_loop self rest (keys ++ [py_str (enum_value key)])
      else sk_loop self rest keys
  end.

Definition sk_ (self : DynaModel) : result string :=
  keys ← sk_loop self (__fields__ (__class__ self)) [];
  if (length keys =? 0)%nat then Raise (ValueError "No sort key found")
  else Ok (String.concat "#" keys).

(** [BaseModel.dict(exclude_none=True)] as [to_dict] calls it: every
    attribute of the instance whose value is not [None]. *)
Definition to_dict (self : DynaModel) : gmap string pyval :=
  filter (fun kv => kv.2 <> VNone) (__dict__ self).

(** ** The shared table name *)

(** The order of [str]: [a <= b]. *)
Definition str_le (a b : string) : Prop := String.leb a b = true.

#[global] Instance str_le_dec : RelDecision str_le.
Proof. intros a b. unfold str_le. apply _. Defined.

(** [ents.sort()] on a list of [str].  The order of [str] is total and
    antisymmetric, so the sorted list does not depend on the algorithm
    (see [sorted_perm_eq]); Python's is a merge sort. *)
Definition list_sort (ents : list string) : list string :=
  merge_sort str_le ents.

(** The loop shared by both [__table_name__]: append the name of the next
    type, sort, go on. *)
Fixpoint table_name_loop (types : list ModelClass) (ents : list string)
    : list string :=
  match types with
  | [] => ents
  | ent :: rest => table_name_loop rest (list_sort (ents ++ [__name__ ent]))
  end.

(** [DynamoDB.__table_name__]: [entities] is the class-level set
    [DynamoDB.entities] in the order the [for] loop visits it. *)
Definition DynamoDB_table_name (entities : list ModelClass) : string :=
  String.concat "-" (table_name_loop entities []).

(** [DynaModel.__table_name__]: [subclasses] is [cls.__subclasses__()], in
    the order the subclasses were defined. *)
Definition DynaModel_table_name (subclasses : list ModelClass) : string :=
  String.concat "-" (table_name_loop subclasses []).

(** ** Attribute values and requests to the store *)

Set Warnings "-register-all".

(** A tagged attribute value of the store: [{"S": s}], [{"N": n}],
    [{"B": b}], [{"BOOL": b}], [{"NULL": True}], [{"L": l}], [{"M": m}]. *)
Inductive attr : Type :=
| AttrS (s : string)
| AttrN (n : string)
| AttrB (b : string)
| AttrBOOL (b : bool)
| AttrNULL
| AttrL (l : list attr)
| AttrM (m : gmap string attr).

(** What the module passes to [TypeSerializer.serialize] and gets back from
    [TypeDeserializer.deserialize]: a [str] or a [dict] of attribute values. *)
Inductive pyobj : Type :=
| PyStr (s : string)
| PyDict (d : gmap string pyval).

(** The calls the module makes on a boto3 DynamoDB client, with the keyword
    arguments that vary.  [CreateTable] always declares the string
    attributes [pk] (HASH) and [sk] (RANGE) with [PAY_PER_REQUEST] billing;
    [StreamViewType] is the stream specification when one is given. *)
Inductive request : Type :=
| GetItem (TableName : string) (Key : gmap string attr)
| PutItem (TableName : string) (Item : gmap string attr)
| DeleteItem (TableName : string) (Key : gmap string attr)
| Query (TableName : string) (KeyConditionExpression : string)
    (ExpressionAttributeValues : gmap string attr)
| Scan (TableName : string) (Limit Offset : option Z)
| CreateTable (TableName : string) (StreamViewType : option string)
| UpdateTimeToLive (TableName : string) (AttributeName : string)
| DeleteTable (TableName : string)
| WaitUntil (waiter : string) (TableName : string).

(** The part of a response the module reads: [response.get("Item")] and
    [response.get("Items")]. *)
Record response : Type := {
  Item : option (gmap string attr);
  Items : option (list (gmap string attr))
}.

(** ** The key condition of [DynamoDB.query] *)

(** [s.split(sep)] for a one-character separator. *)
Fixpoint str_split (sep : ascii) (s : string) : list string :=
  match s with
  | EmptyString => [""]
  | String c rest =>
      let parts := str_split sep rest in
      if Ascii.eqb c sep then "" :: parts
      else match parts with
           | p :: ps => String c p :: ps
           | [] => [String c ""]
           end
  end.

(** [s.count(sep)] for a one-character separator. *)
Fixpoint str_count (sep : ascii) (s : string) : nat :=
  match s with
  | EmptyString => 0
  | String c rest =>
      (if Ascii.eqb c sep then 1 else 0) + str_count sep rest
  end.

(** [from_, to_ = parts]: the unpacking of a list into two names, with
    the messages of CPython's [ValueError]. *)
Definition unpack2 (parts : list string) : result (string * string) :=
  match parts with
  | [from_; to_] => Ok (from_, to_)
  | [] | [_] =>
      Raise (ValueError ("not enough values to unpack (expected 2, got "
                         +:+ pretty (length parts) +:+ ")"))
  | _ => Raise (ValueError "too many values to unpack (expected 2)")
  end.

(** The branch of [query] taken when [sk] is true: the clause added to
    [key_condition] and the entries added to [expression_values].
    [operator] is [None] or whatever string the caller gave. *)
Definition sk_condition (sk : string) (operator : option string)
    (key_condition : string) (expression_values : gmap string attr)
    : result (string * gmap string attr) :=
  if decide (operator = Some "begins_with") then
    Ok (key_condition +:+ " AND begins_with ( sk, :sk )",
        <[":sk" := AttrS sk]> expression_values)
  else if decide (operator = Some "between") then
    let key_condition := key_condition +:+ " AND sk BETWEEN :sk0 AND :sk1" in
    '(from_, to_) ← unpack2 (str_split "-" sk);
    Ok (key_condition,
        <[":sk1" := AttrS to_]> (<[":sk0" := AttrS from_]> expression_values))
  else
    match operator with
    | Some op =>
        if bool_decide (op ∈ ["="; ">"; "<"; ">="; "<="]) then
          Ok (key_condition +:+ " AND sk " +:+ op +:+ " :sk",
              <[":sk" := AttrS sk]> expression_values)
        else Raise (ValueError "Invalid sort key")
    | None => Raise (ValueError "Invalid sort key")
    end.

(** [if n: key_condition += f" KEYWORD {n}"]. *)
Definition modifier_clause (keyword : string) (n : option Z)
    (key_condition : string) : string :=
  match n with
  | Some n =>
      if (n =? 0)%Z then key_condition
      else key_condition +:+ " " +:+ keyword +:+ " " +:+ pretty n
  | None => key_condition
  end.

(** Lines 313-333 of [DynamoDB.query]: [key_condition] and
    [expression_values] as they stand when [client.query] is reached, or
    the exception raised before. *)
Definition key_condition_of (pk : string) (sk : option string)
    (operator : option string) (limit offset : option Z)
    : result (string * gmap string attr) :=
  let key_condition := "pk = :pk" in
  let expression_values : gmap string attr := {[ ":pk" := AttrS pk ]} in
  '(key_condition, expression_values) ←
    match sk with
    | Some sk =>
        if String.eqb sk "" then Ok (key_condition, expression_values)
        else sk_condition sk operator key_condition expression_values
    | None => Ok (key_condition, expression_values)
    end;
  let key_condition := modifier_clause "LIMIT" limit key_condition in
  let key_condition := modifier_clause "OFFSET" offset key_condition in
  Ok (key_condition, expression_values).

(** ** The environment of the module *)

(** What the module is linked against and does not define itself.
    - [backend] is the DynamoDB service behind the boto3 clients: its
      answer to a request in a state of type [St], and the state after.
    - [TypeSerializer_serialize] and [TypeDeserializer_deserialize] are
      boto3's [TypeSerializer.serialize] and [TypeDeserializer.deserialize].
    - [BaseModel_init] is pydantic's [BaseModel.__init__] on the keyword arguments: the
      attribute dictionary of the validated instance.
    - [entities] is the class-level set [DynamoDB.entities] once the model
      classes are defined, in the order a [for] loop visits it. *)
Class Env : Type := {
  St : Type;
  backend : request -> St -> result response * St;
  TypeSerializer_serialize : pyobj -> result attr;
  TypeDeserializer_deserialize : attr -> result pyobj;
  BaseModel_init : ModelClass -> gmap string pyval -> result (gmap string pyval);
  entities : list ModelClass
}.

Section Operations.
Context `{!Env}.

(** The service state and the requests sent so far, oldest first. *)
Record world : Type := {
  store : St;
  sent : list request
}.

(** A computation that may call the store and may raise. *)
Definition io (A : Type) : Type := world -> result A * world.

#[global] Instance io_ret : MRet io := fun A a w => (Ok a, w).

#[global] Instance io_bind : MBind io := fun A B k m w =>
  match m w with
  | (Ok a, w') => k a w'
  | (Raise e, w') => (Raise e, w')
  end.

(** A step that does not touch the store. *)
Definition lift {A} (r : result A) : io A := fun w => (r, w).

(** One call on the client. *)
Definition call (req : request) : io response := fun w =>
  let '(r, st) := backend req (store w) in
  (r, {| store := st; sent := sent w ++ [req] |}).

(** [try: body / except Exception: handler]. *)
Definition try_except {A} (body : io A) (handler : exn -> io A) : io A :=
  fun w =>
    match body w with
    | (Ok a, w') => (Ok a, w')
    | (Raise e, w') => handler e w'
    end.

(** *** [DynamoDB] *)

(** [DynamoDB.serialize]. *)
Definition DynamoDB_serialize (instance : DynaModel)
    : result (gmap string attr) :=
  a ← TypeSerializer_serialize (PyDict (to_dict instance));
  match a with
  | AttrM m => Ok m
  | _ => Raise (KeyError "M")
  end.

(** [DynamoDB.deserialize]. *)
Definition DynamoDB_deserialize (data : gmap string attr) : result pyobj :=
  TypeDeserializer_deserialize (AttrM data).

(** The [Key] argument of [get_item] and [delete_item]. *)
Definition item_key (pk sk : string) : result (gmap string attr) :=
  pk_attr ← TypeSerializer_serialize (PyStr pk);
  sk_attr ← TypeSerializer_serialize (PyStr sk);
  Ok (<["pk" := pk_attr]> {["sk" := sk_attr]}).

(** [DynamoDB.get]. *)
Definition DynamoDB_get (pk sk : string) : io pyobj :=
  let table := DynamoDB_table_name entities in
  key ← lift (item_key pk sk);
  response ← call (GetItem table key);
  lift (DynamoDB_deserialize (default ∅ (Item response))).

(** [DynamoDB.put]. *)
Definition DynamoDB_put (instance : DynaModel) : io unit :=
  let table := DynamoDB_table_name entities in
  item ← lift (DynamoDB_serialize instance);
  _ ← call (PutItem table item);
  mret tt.

(** [DynamoDB.delete]. *)
Definition DynamoDB_delete (pk sk : string) : io unit :=
  let table := DynamoDB_table_name entities in
  key ← lift (item_key pk sk);
  _ ← call (DeleteItem table key);
  mret tt.

(** [DynamoDB.query]. *)
Definition DynamoDB_query (pk : string) (sk operator : option string)
    (limit offset : option Z) : io (list pyobj) :=
  '(key_condition, expression_values) ←
    lift (key_condition_of pk sk operator limit offset);
  response ←
    call (Query (DynamoDB_table_name entities) key_condition
            expression_values);
  lift (mapM DynamoDB_deserialize (default [] (Items response))).

(** [n] as a keyword argument of [scan]: present when [if n:] holds. *)
Definition scan_kwarg (n : option Z) : option Z :=
  match n with
  | Some n => if (n =? 0)%Z then None else Some n
  | None => None
  end.

(** [DynamoDB.scan]. *)
Definition DynamoDB_scan (limit offset : option Z) : io (list pyobj) :=
  response ←
    call (Scan (DynamoDB_table_name entities) (scan_kwarg limit)
            (scan_kwarg offset));
  lift (mapM DynamoDB_deserialize (default [] (Items response))).

(** *** [DynaModel] *)

(** [DynaModel.__init__]: the instance [cls] builds from the keyword
    arguments [kwargs]. *)
Definition __init__ (cls : ModelClass) (kwargs : gmap string pyval)
    : result DynaModel :=
  d ← BaseModel_init cls kwargs;
  let self := {| __class__ := cls; __dict__ := d |} in
  pk ← pk_ self;
  let self := setattr self "pk" (VStr pk) in
  sk ← sk_ self;
  Ok (setattr self "sk" (VStr sk)).

(** [cls] called with the [data] that [DynamoDB.deserialize] gave as its
    keyword arguments. *)
Definition construct (cls : ModelClass) (data : pyobj) : result DynaModel :=
  match data with
  | PyDict d => __init__ cls d
  | PyStr _ =>
      Raise (TypeError "argument after ** must be a mapping, not str")
  end.

(** The methods below carry the decorators [handle] and [async_io] of
    [cloudantic.utils]; what is modelled is the body under the decorators,
    not the decorators. *)

(** [DynaModel.put]. *)
Definition DynaModel_put (self : DynaModel) : io DynaModel :=
  _ ← DynamoDB_put self;
  mret self.

(** [DynaModel.delete]. *)
Definition DynaModel_delete (cls : ModelClass) (pk sk : string) : io unit :=
  let prefix := __name__ cls +:+ "#" in
  DynamoDB_delete (prefix +:+ pk) sk.

(** [DynaModel.get]. *)
Definition DynaModel_get (cls : ModelClass) (pk sk : string)
    : io DynaModel :=
  let prefix := __name__ cls +:+ "#" in
  data ← DynamoDB_get (prefix +:+ pk) sk;
  lift (construct cls data).

(** [DynaModel.query]. *)
Definition DynaModel_query (cls : ModelClass) (pk : string)
    (sk operator : option string) : io (list DynaModel) :=
  let prefix := __name__ cls +:+ "#" in
  data ← DynamoDB_query (prefix +:+ pk) sk operator None None;
  lift (mapM (construct cls) data).

(** [DynaModel.scan]. *)
Definition DynaModel_scan (cls : ModelClass) (limit offset : option Z)
    : io (list DynaModel) :=
  data ← DynamoDB_scan limit offset;
  lift (mapM (construct cls) data).

(** The body of the [try] in [DynaModel.create_table]; [subclasses] is
    [cls.__subclasses__()]. *)
Definition create_table_try (subclasses : list ModelClass) : io string :=
  let table_name := DynaModel_table_name subclasses in
  _ ← call (CreateTable table_name (Some "NEW_AND_OLD_IMAGES"));
  _ ← call (UpdateTimeToLive table_name "ttl");
  _ ← call (WaitUntil "table_exists" table_name);
  mret ("Table " +:+ DynaModel_table_name subclasses
        +:+ " created successfully").

(** [DynaModel.create_table]. *)
Definition create_table (subclasses : list ModelClass) : io string :=
  try_except (create_table_try subclasses)
    (fun _ =>
       mret ("Table " +:+ DynaModel_table_name subclasses
             +:+ " already exists")).

(** [DynaModel.drop_table]. *)
Definition drop_table (subclasses : list ModelClass) : io bool :=
  try_except
    (_ ← call (DeleteTable (DynaModel_table_name subclasses));
     _ ← call (WaitUntil "table_not_exists"
                 (DynaModel_table_name subclasses));
     mret true)
    (fun _ => mret false).

End Operations.

(** ** Model classes of the application and a store in memory *)

(** [Field(..., flag=True, ...)] for each flag listed. *)
Definition Field (field_name : string) (flags : list string) : ModelField :=
  {| name := field_name;
     extra := list_to_map ((fun flag => (flag, VBool true)) <$> flags) |}.

(** The fields every model inherits from [DynaModel]. *)
Definition base_fields : list ModelField := [Field "pk" []; Field "sk" []].

(** [class Task(DynaModel)] of [main.py]. *)
Definition Task : ModelClass :=
  {| __name__ := "Task";
     __fields__ := base_fields ++
       [Field "user" ["pk"]; Field "title" []; Field "description" [];
        Field "created_at" []; Field "completed" ["sk"]] |}.

(** [class User(DynaModel)] of [main.py]; [locale] defaults to [None]. *)
Definition User : ModelClass :=
  {| __name__ := "User";
     __fields__ := base_fields ++
       [Field "email" []; Field "email_verified" []; Field "family_name" [];
        Field "given_name" []; Field "locale" ["sk"]; Field "name" [];
        Field "nickname" []; Field "picture" []; Field "sub" ["pk"];
        Field "updated_at" []] |}.

(** [class Post(DynaModel)] of [main.py]: two sort-key fields. *)
Definition Post : ModelClass :=
  {| __name__ := "Post";
     __fields__ := base_fields ++
       [Field "user" ["pk"]; Field "namespace" ["sk"]; Field "title" [];
        Field "content" []; Field "created_at" ["sk"]] |}.

(** A model with a partition-key field and no sort-key field. *)
Definition Note : ModelClass :=
  {| __name__ := "Note";
     __fields__ := base_fields ++ [Field "user" ["pk"]] |}.

(** A model with no key field at all. *)
Definition Plain : ModelClass :=
  {| __name__ := "Plain";
     __fields__ := base_fields ++ [Field "title" []] |}.

(** An instance with the given attributes, [pk] and [sk] at their default. *)
Definition instance_of (cls : ModelClass) (attrs : list (string * pyval))
    : DynaModel :=
  {| __class__ := cls;
     __dict__ := <["pk" := VStr ""]> (<["sk" := VStr ""]> (list_to_map attrs)) |}.

Definition a_task : DynaModel :=
  instance_of Task
    [("user", VStr "U1"); ("title", VStr "t"); ("description", VStr "d");
     ("created_at", VStr "2024-01-01"); ("completed", VBool false)].

Definition a_post : DynaModel :=
  instance_of Post
    [("user", VStr "U1"); ("namespace", VStr "blog"); ("title", VStr "t");
     ("content", VStr "c"); ("created_at", VStr "2024-01-01")].

Definition a_user : DynaModel :=
  instance_of User
    [("email", VNone); ("locale", VNone); ("name", VStr "Ann");
     ("sub", VStr "auth0|1")].

Definition a_note : DynaModel := instance_of Note [("user", VStr "U1")].

Definition a_plain : DynaModel := instance_of Plain [("title", VStr "t")].

Definition no_response : response := {| Item := None; Items := None |}.

(** A service that only keeps the names of its tables: creating a table
    that exists and deleting one that does not are errors, every other
    request is answered with an empty response. *)
Definition tables_backend (req : request) (tables : list string)
    : result response * list string :=
  match req with
  | CreateTable t _ =>
      if bool_decide (t ∈ tables)
      then (Raise (ClientError "ResourceInUseException"), tables)
      else (Ok no_response, t :: tables)
  | DeleteTable t =>
      if bool_decide (t ∈ tables)
      then (Ok no_response, filter (fun t' => t' <> t) tables)
      else (Raise (ClientError "ResourceNotFoundException"), tables)
  | _ => (Ok no_response, tables)
  end.

(** A codec for flat values: scalars by their tag, anything else by the
    string [str] gives. *)
Definition flat_attr (v : pyval) : attr :=
  match v with
  | VNone => AttrNULL
  | VBool b => AttrBOOL b
  | VInt z => AttrN (pretty z)
  | v => AttrS (py_str v)
  end.

Definition flat_serialize (o : pyobj) : result attr :=
  match o with
  | PyStr s => Ok (AttrS s)
  | PyDict d => Ok (AttrM (flat_attr <$> d))
  end.

Definition flat_value (a : attr) : pyval :=
  match a with
  | AttrS s => VStr s
  | AttrBOOL b => VBool b
  | AttrNULL => VNone
  | AttrN n => VObject n
  | _ => VNone
  end.

Definition flat_deserialize (a : attr) : result pyobj :=
  match a with
  | AttrS s => Ok (PyStr s)
  | AttrM m => Ok (PyDict (flat_value <$> m))
  | _ => Raise (TypeError "Dynamodb type not supported")
  end.

(** Validation that takes the keyword arguments as they are and gives
    [pk] and [sk] their default, the empty string. *)
Definition plain_init (cls : ModelClass) (kwargs : gmap string pyval)
    : result (gmap string pyval) :=
  Ok (<["pk" := VStr ""]> (<["sk" := VStr ""]> kwargs)).

(** The application of [main.py] against the store in memory. *)
Definition tables_env : Env :=
  {| St := list string;
     backend := tables_backend;
     TypeSerializer_serialize := flat_serialize;
     TypeDeserializer_deserialize := flat_deserialize;
     BaseModel_init := plain_init;
     entities := [Task; User; Post] |}.

Definition start (tables : list string) : @world tables_env :=
  {| store := tables : @St tables_env; sent := [] |}.

(** ** Vocabulary of the properties *)

(** The fields of [cls] declared with a true [flag] ([pk] or [sk]), in
    declaration order: its partition-key or sort-key contributors. *)
Definition contributors (flag : string) (cls : ModelClass) : list ModelField :=
  filter (fun field => extra_flag flag field = true) (__fields__ cls).

(** The string a key field with value [key] contributes to a key. *)
Definition key_part (key : pyval) : string := py_str (enum_value key).

(** The operators [query] translates into a condition on the sort key. *)
Definition translated_operators : list string :=
  ["begins_with"; "between"; "="; ">"; "<"; ">="; "<="].

(** The declared type [Operator]. *)
Definition Operator : list string :=
  ["="; ">"; "<"; ">="; "<="; "begins_with"; "between"; "contains"].

(** ** The rest of the module and its callers *)

(** *** [LazyProxy] *)

(** A [LazyProxy]: the attribute [__proxied], [None] until an object is
    loaded. *)
Record LazyProxy (T : Type) : Type := {
  proxied : option T
}.
Arguments proxied {T} _.

(** [LazyProxy.__init__]. *)
Definition LazyProxy_init {T : Type} : LazyProxy T := {| proxied := None |}.

(** [LazyProxy.__get_proxied__]: the object returned, the proxy and the
    state of the loader afterwards.  [__load__] is the abstract method; it
    runs on a state of type [L] and may itself return [None]. *)
Definition __get_proxied__ {T L : Type} (__load__ : L -> option T * L)
    (self : LazyProxy T) (l : L) : option T * LazyProxy T * L :=
  match proxied self with
  | Some p => (Some p, self, l)
  | None =>
      let '(p, l') := __load__ l in
      (p, {| proxied := p |}, l')
  end.

(** [LazyProxy.__set_proxied__]. *)
Definition __set_proxied__ {T : Type} (self : LazyProxy T) (value : option T)
    : LazyProxy T :=
  {| proxied := value |}.

(** *** [DynamoDB.create_all] *)

Section CreateAll.
Context `{!Env}.

(** [dynamodb.list_tables()["TableNames"]]. *)
Variable list_tables : io (list string).

(** [DynamoDB.create_all]. *)
Definition create_all (table : string) : io unit :=
  tables ← list_tables;
  if bool_decide (table ∈ tables) then mret tt
  else
    _ ← call (CreateTable table None);
    _ ← call (WaitUntil "table_exists" table);
    mret tt.

End CreateAll.

(** *** [main.py] *)

(** The body of the handler [delete_post] of [main.py]. *)
Definition delete_post `{!Env} (user sk : string) : io unit :=
  DynaModel_delete Post user (String.concat "#" (str_split "," sk)).

(** *** More vocabulary *)

(** The table a request names. *)
Definition request_table (req : request) : string :=
  match req with
  | GetItem t _ | PutItem t _ | DeleteItem t _ | Query t _ _ | Scan t _ _
  | CreateTable t _ | UpdateTimeToLive t _ | DeleteTable t
  | WaitUntil _ t => t
  end.

(** The names of the fields of [cls] that contribute to a key. *)
Definition key_field_names (cls : ModelClass) : list string :=
  name <$> (contributors "pk" cls ++ contributors "sk" cls)%list.

(** [m], run in [w], sends the requests [reqs], in this order, and no
    other. *)
Definition sends `{!Env} {A : Type} (m : io A) (w : world)
    (reqs : list request) : Prop :=
  sent (snd (m w)) = (sent w ++ reqs)%list.

(** [m], run in [w], sends at most one request, and that one names the
    table shared by the registered types. *)
Definition one_request_on_table `{!Env} {A : Type} (m : io A) (w : world)
    : Prop :=
  exists reqs : list request,
    sends m w reqs /\ length reqs <= 1
    /\ Forall (fun req => request_table req = DynamoDB_table_name entities)
         reqs.

(** A service that is down: it answers every request with an exception. *)
Definition down_backend (req : request) (st : unit)
    : result response * unit :=
  (Raise (ClientError "ServiceUnavailable"), st).

(** The application of [main.py] against the service that is down. *)
Definition down_env : Env :=
  {| St := unit;
     backend := down_backend;
     TypeSerializer_serialize := flat_serialize;
     TypeDeserializer_deserialize := flat_deserialize;
     BaseModel_init := plain_init;
     entities := [Task; User; Post] |}.

Definition down_start : @world down_env :=
  {| store := tt : @St down_env; sent := [] |}.

(** A loader that hands out the numbers 0, 1, 2, ... and counts its calls. *)
Definition counting_load (n : nat) : option nat * nat := (Some n, S n).

(** A listing of the tables of the store in memory. *)
Definition tables_list : @io tables_env (list string) :=
  fun w => (Ok (store w : list string), w).

(** * Properties *)

(** ** Key derivation *)

Lemma pk_loop_spec (self : DynaModel) (fields : list ModelField) :
  pk_loop self fields =
  match filter (fun field => extra_flag "pk" field = true) fields with
  | [] => Raise (ValueError "No partition key found")
  | field :: _ =>
      key ← getattr self (name field);
      Ok (__name__ (__class__ self) +:+ "#" +:+ key_part key)
  end.
Proof.
  induction fields as [|field rest IH]; [reflexivity|].
  cbn [pk_loop]. destruct (extra_flag "pk" field) eqn:Hflag.
  - rewrite filter_cons_True by done. reflexivity.
  - rewrite filter_cons_False by (rewrite Hflag; discriminate). exact IH.
Qed.

Lemma sk_loop_spec (self : DynaModel) (fields : list ModelField) :
  forall (values : list pyval) (keys : list string),
  Forall2 (fun field v => getattr self (name field) = Ok v)
    (filter (fun field => extra_flag "sk" field = true) fields) values ->
  sk_loop self fields keys = Ok (keys ++ (key_part <$> values))%list.
Proof.
  induction fields as [|field rest IH]; intros values keys Hvals.
  - inversion Hvals; subst. cbn. by rewrite app_nil_r.
  - cbn [sk_loop]. destruct (extra_flag "sk" field) eqn:Hflag.
    + rewrite filter_cons_True in Hvals by done.
      inversion Hvals as [|? v ? vs Hget Hrest]; subst.
      rewrite Hget. cbn. rewrite (IH vs) by done.
      by rewrite <- app_assoc.
    + rewrite filter_cons_False in Hvals by (rewrite Hflag; discriminate).
      by apply IH.
Qed.

(** Without a sort-key contributor the loop leaves [keys] as it is. *)
Lemma sk_loop_no_contributor (self : DynaModel) (fields : list ModelField)
    (keys : list string) :
  filter (fun field => extra_flag "sk" field = true) fields = [] ->
  sk_loop self fields keys = Ok keys.
Proof.
  intros Hnone. rewrite (sk_loop_spec self fields [] keys).
  - by rewrite app_nil_r.
  - rewrite Hnone. constructor.
Qed.

(** With a sort-key contributor the loop ends with a non-empty list or
    with the [AttributeError] of a missing attribute. *)
Lemma sk_loop_contributor (self : DynaModel) (fields : list ModelField) :
  forall keys : list string,
  filter (fun field => extra_flag "sk" field = true) fields <> [] \/ keys <> [] ->
  (exists keys', keys' <> [] /\ sk_loop self fields keys = Ok keys') \/
  (exists a, sk_loop self fields keys = Raise (AttributeError a)).
Proof.
  induction fields as [|field rest IH]; intros keys Hsome.
  - left. exists keys. split; [|reflexivity]. by destruct Hsome.
  - cbn [sk_loop]. destruct (extra_flag "sk" field) eqn:Hflag.
    + unfold getattr. destruct (__dict__ self !! name field) as [v|].
      * cbn. apply IH. right. by destruct keys.
      * right. by eexists.
    + apply IH. destruct Hsome as [Hsome|?]; [left|by right].
      by rewrite filter_cons_False in Hsome by (rewrite Hflag; discriminate).
Qed.

Lemma concat_key_parts_nonempty (keys : list string) :
  keys <> [] -> (length keys =? 0)%nat = false.
Proof. by destruct keys. Qed.

(** C1. For an instance of a type that declares a partition-key field
    (the first one in declaration order), the derived partition key is the
    type's name, then ["#"], then the string form of that field's value:
    [str] of the value itself when it is not an enum member, and [str] of
    its [.value], not of the member, when it is one.  For a type with no
    partition-key field the derivation raises
    [ValueError("No partition key found")]. *)
Theorem pk_derivation (self : DynaModel) :
  (forall (field : ModelField) (others : list ModelField) (key : pyval),
      contributors "pk" (__class__ self) = field :: others ->
      getattr self (name field) = Ok key ->
      (forall member value, key <> VEnum member value) ->
      pk_ self = Ok (__name__ (__class__ self) +:+ "#" +:+ py_str key))
  /\ (forall (field : ModelField) (others : list ModelField)
         (member : string) (value : pyval),
      contributors "pk" (__class__ self) = field :: others ->
      getattr self (name field) = Ok (VEnum member value) ->
      pk_ self = Ok (__name__ (__class__ self) +:+ "#" +:+ py_str value))
  /\ (contributors "pk" (__class__ self) = [] ->
      pk_ self = Raise (ValueError "No partition key found")).
Proof.
  unfold pk_, contributors. rewrite pk_loop_spec. split_and!.
  - intros field others key -> -> Hplain.
    destruct key as [| | | |member value|]; try reflexivity.
    by destruct (Hplain member value).
  - intros field others member value -> ->. reflexivity.
  - intros ->. reflexivity.
Qed.

Lemma pk_derivation_witness :
  pk_ a_task = Ok "Task#U1"
  /\ pk_ (instance_of Task [("user", VEnum "Team.RED" (VInt 7))])
     = Ok "Task#7"
  /\ pk_ a_plain = Raise (ValueError "No partition key found").
Proof.
  destruct (pk_derivation a_task) as (Hplain & _ & _).
  destruct (pk_derivation
              (instance_of Task [("user", VEnum "Team.RED" (VInt 7))]))
    as (_ & Henum & _).
  destruct (pk_derivation a_plain) as (_ & _ & Hnone).
  split_and!.
  - apply (Hplain (Field "user" ["pk"]) [] (VStr "U1")); done.
  - apply (Henum (Field "user" ["pk"]) [] "Team.RED" (VInt 7)); reflexivity.
  - apply Hnone. reflexivity.
Defined.

(** An enum member contributes its underlying value, not its name. *)
Example pk_of_enum_member :
  pk_ (instance_of Task [("user", VEnum "Team.RED" (VInt 7))]) = Ok "Task#7".
Proof. reflexivity. Qed.

Lemma sk_of_values (self : DynaModel) (values : list pyval) :
  contributors "sk" (__class__ self) <> [] ->
  Forall2 (fun field v => getattr self (name field) = Ok v)
    (contributors "sk" (__class__ self)) values ->
  sk_ self = Ok (String.concat "#" (key_part <$> values)).
Proof.
  unfold sk_, contributors. intros Hsome Hvals.
  rewrite (sk_loop_spec self _ values []) by done. cbn.
  rewrite concat_key_parts_nonempty; [reflexivity|].
  intros Hnil. apply fmap_nil_inv in Hnil. subst.
  inversion Hvals as [Hnone|]; subst. by rewrite <- Hnone in Hsome.
Qed.

Lemma sk_of_no_contributor (self : DynaModel) :
  contributors "sk" (__class__ self) = [] ->
  sk_ self = Raise (ValueError "No sort key found").
Proof.
  unfold sk_, contributors. intros Hnone. by rewrite sk_loop_no_contributor.
Qed.

(** C2. For an instance of a type with N >= 1 sort-key fields, whose values
    are [values] in declaration order, the derived sort key is the
    ["#"]-join of the strings of those values; for a type with no sort-key
    field the derivation raises [ValueError("No sort key found")]. *)
Theorem sk_derivation (self : DynaModel) :
  (forall values : list pyval,
      contributors "sk" (__class__ self) <> [] ->
      Forall2 (fun field v => getattr self (name field) = Ok v)
        (contributors "sk" (__class__ self)) values ->
      sk_ self = Ok (String.concat "#" (key_part <$> values)))
  /\ (contributors "sk" (__class__ self) = [] ->
      sk_ self = Raise (ValueError "No sort key found")).
Proof.
  split.
  - intros values. apply sk_of_values.
  - apply sk_of_no_contributor.
Qed.

Lemma sk_derivation_witness :
  sk_ a_post = Ok "blog#2024-01-01" /\
  sk_ a_note = Raise (ValueError "No sort key found").
Proof.
  destruct (sk_derivation a_post) as [Hsome _].
  destruct (sk_derivation a_note) as [_ Hnone].
  split.
  - apply (Hsome [VStr "blog"; VStr "2024-01-01"]).
    + vm_compute. discriminate.
    + vm_compute. repeat constructor.
  - apply Hnone. reflexivity.
Defined.

Lemma attribute_values (self : DynaModel) (fields : list ModelField) :
  Forall (fun field => is_Some (__dict__ self !! name field)) fields ->
  exists values : list pyval,
    Forall2 (fun field v => getattr self (name field) = Ok v) fields values.
Proof.
  induction 1 as [|field rest [v Hv] _ [values IH]].
  - exists []. constructor.
  - exists (v :: values). constructor; [|done].
    unfold getattr. by rewrite Hv.
Qed.

(** C8 as stated does not hold.  [Note] declares no sort-key field, so the
    case the claim names does not apply to [a_note], yet the derivation
    raises; and [User] declares the sort-key field [locale], whose value is
    absent ([None]) in [a_user], yet the derivation succeeds. *)
Lemma sk_failure_not_only_absent_values :
  ~ (is_ok (sk_ a_note) = false ->
     contributors "sk" (__class__ a_note) <> [])
  /\ ~ (contributors "sk" (__class__ a_user) <> [] ->
        Forall (fun field => getattr a_user (name field) = Ok VNone)
          (contributors "sk" (__class__ a_user)) ->
        is_ok (sk_ a_user) = false).
Proof.
  split.
  - intros Hclaim. by apply Hclaim.
  - intros Hclaim. enough (is_ok (sk_ a_user) = false) by done.
    apply Hclaim; vm_compute; [discriminate|]. repeat constructor.
Qed.

(** C8, amended. The sort-key derivation raises the [ValueError] of a
    missing key field exactly when the type declares no sort-key field.
    When it declares one and each declared sort-key field has a value on the
    instance, [None] included, the derivation succeeds; a [None] value
    contributes the string ["None"]. *)
Theorem sk_failure_condition (self : DynaModel) :
  ((exists msg, sk_ self = Raise (ValueError msg)) <->
   contributors "sk" (__class__ self) = [])
  /\ (contributors "sk" (__class__ self) <> [] ->
      Forall (fun field => is_Some (__dict__ self !! name field))
        (contributors "sk" (__class__ self)) ->
      exists sk, sk_ self = Ok sk)
  /\ key_part VNone = "None".
Proof.
  split; [split|split; [|reflexivity]].
  - intros [msg Hraise].
    destruct (decide (contributors "sk" (__class__ self) = [])) as [|Hsome];
      [done|exfalso].
    unfold sk_ in Hraise.
    destruct (sk_loop_contributor self (__fields__ (__class__ self)) [])
      as [(keys & Hkeys & Hloop)|[a Hloop]]; [by left| |];
      rewrite Hloop in Hraise; cbn in Hraise.
    + by rewrite concat_key_parts_nonempty in Hraise.
    + discriminate.
  - intros Hnone. eexists. by apply sk_of_no_contributor.
  - intros Hsome Hvals. apply attribute_values in Hvals as [values Hvals].
    eexists. by apply sk_of_values.
Qed.

Lemma sk_failure_condition_witness :
  (exists sk, sk_ a_user = Ok sk) /\
  (exists msg, sk_ a_note = Raise (ValueError msg)).
Proof.
  split.
  - apply (sk_failure_condition a_user).
    + vm_compute. discriminate.
    + vm_compute. repeat constructor; by eexists.
  - apply (sk_failure_condition a_note). reflexivity.
Defined.

(** ** The shared table name *)

Lemma str_compare_trans (s1 : string) :
  forall s2 s3 : string,
  String.compare s1 s2 <> Gt -> String.compare s2 s3 <> Gt ->
  String.compare s1 s3 <> Gt.
Proof.
  induction s1 as [|a s1 IH]; intros [|b s2] [|c s3]; cbn; try done.
  unfold Ascii.compare.
  destruct (N.compare_spec (N_of_ascii a) (N_of_ascii b)) as [Hab|Hab|Hab],
    (N.compare_spec (N_of_ascii b) (N_of_ascii c)) as [Hbc|Hbc|Hbc],
    (N.compare_spec (N_of_ascii a) (N_of_ascii c)) as [Hac|Hac|Hac];
    try done; try lia.
  apply IH.
Qed.

#[global] Instance str_le_trans : Transitive str_le.
Proof.
  intros s1 s2 s3. unfold str_le, String.leb. intros H12 H23.
  pose proof (str_compare_trans s1 s2 s3) as Htrans.
  destruct (String.compare s1 s2), (String.compare s2 s3),
    (String.compare s1 s3); try done; exfalso; by apply Htrans.
Qed.

#[global] Instance str_le_antisym : AntiSymm eq str_le.
Proof. intros s1 s2. apply String.leb_antisym. Qed.

#[global] Instance str_le_total : Total str_le.
Proof. intros s1 s2. apply String.leb_total. Qed.

Lemma list_sort_sorted (ents : list string) : Sorted str_le (list_sort ents).
Proof. apply Sorted_merge_sort, _. Qed.

Lemma list_sort_perm (ents : list string) : list_sort ents ≡ₚ ents.
Proof. apply merge_sort_Permutation. Qed.

(** Two sorted lists with the same elements are the same list. *)
Lemma sorted_perm_eq (l1 l2 : list string) :
  Sorted str_le l1 -> Sorted str_le l2 -> l1 ≡ₚ l2 -> l1 = l2.
Proof. intros. by apply (Sorted_unique str_le). Qed.

(** The loop keeps the list sorted and adds the names it visits. *)
Lemma table_name_loop_spec (types : list ModelClass) :
  forall ents : list string,
  Sorted str_le ents ->
  Sorted str_le (table_name_loop types ents) /\
  table_name_loop types ents ≡ₚ (ents ++ (__name__ <$> types))%list.
Proof.
  induction types as [|ent rest IH]; intros ents Hsorted; cbn.
  - split; [done|]. by rewrite app_nil_r.
  - destruct (IH (list_sort (ents ++ [__name__ ent]))) as [Hs Hp];
      [apply list_sort_sorted|].
    split; [done|]. rewrite Hp, list_sort_perm, <- app_assoc. done.
Qed.

Lemma table_name_loop_sort (types : list ModelClass) :
  table_name_loop types [] = list_sort (__name__ <$> types).
Proof.
  destruct (table_name_loop_spec types []) as [Hs Hp]; [constructor|].
  apply sorted_perm_eq; [done|apply list_sort_sorted|].
  by rewrite Hp, list_sort_perm.
Qed.

(** C3. The table name computed from the registered types, by either
    [__table_name__], is the ["-"]-join of their names sorted in the order
    of [str]; it is the same for any other order of registration. *)
Theorem table_name_sorted_join (types types' : list ModelClass) :
  types ≡ₚ types' ->
  exists ents : list string,
    Sorted str_le ents /\ ents ≡ₚ __name__ <$> types /\
    DynamoDB_table_name types = String.concat "-" ents /\
    DynaModel_table_name types = String.concat "-" ents /\
    DynamoDB_table_name types' = String.concat "-" ents /\
    DynaModel_table_name types' = String.concat "-" ents.
Proof.
  intros Hperm. exists (list_sort (__name__ <$> types)).
  unfold DynamoDB_table_name, DynaModel_table_name.
  rewrite !table_name_loop_sort.
  assert (list_sort (__name__ <$> types') = list_sort (__name__ <$> types))
    as ->.
  { apply sorted_perm_eq; try apply list_sort_sorted.
    by rewrite !list_sort_perm, Hperm. }
  split_and!; try done; [apply list_sort_sorted|apply list_sort_perm].
Qed.

Lemma table_name_sorted_join_witness :
  exists ents : list string,
    Sorted str_le ents /\ ents ≡ₚ __name__ <$> [Task; Note] /\
    DynamoDB_table_name [Task; Note] = String.concat "-" ents /\
    DynaModel_table_name [Task; Note] = String.concat "-" ents /\
    DynamoDB_table_name [Note; Task] = String.concat "-" ents /\
    DynaModel_table_name [Note; Task] = String.concat "-" ents.
Proof.
  apply (table_name_sorted_join [Task; Note] [Note; Task]).
  apply Permutation_swap.
Defined.

(** Registering [Task] then [Note], or [Note] then [Task], names the table
    ["Note-Task"]. *)
Example table_name_Note_Task :
  DynaModel_table_name [Task; Note] = "Note-Task" /\
  DynaModel_table_name [Note; Task] = "Note-Task" /\
  DynamoDB_table_name [Task; Note] = "Note-Task" /\
  DynamoDB_table_name [Note; Task] = "Note-Task".
Proof. vm_compute. done. Qed.

(** ** The key condition of a query *)

Lemma str_split_no_sep (sep : ascii) (s : string) :
  str_count sep s = 0 -> str_split sep s = [s].
Proof.
  induction s as [|c s IH]; cbn; [done|].
  destruct (Ascii.eqb c sep); [done|]. intros Hs. by rewrite IH.
Qed.

Lemma str_split_at_sep (sep : ascii) (lo hi : string) :
  str_count sep lo = 0 ->
  str_split sep (lo +:+ String sep hi) = lo :: str_split sep hi.
Proof.
  induction lo as [|c lo IH]; simpl.
  - by rewrite Ascii.eqb_refl.
  - destruct (Ascii.eqb c sep); [done|]. intros Hlo. by rewrite IH.
Qed.

Lemma str_split_length (sep : ascii) (s : string) :
  length (str_split sep s) = S (str_count sep s).
Proof.
  induction s as [|c s IH]; cbn; [done|].
  destruct (Ascii.eqb c sep); cbn; [by rewrite IH|].
  destruct (str_split sep s); cbn in *; [done|lia].
Qed.

(** A string with one separator is a part without it, the separator, and
    another part without it. *)
Lemma str_count_one (sep : ascii) (s : string) :
  str_count sep s = 1 ->
  exists lo hi : string,
    s = lo +:+ String sep hi /\ str_count sep lo = 0 /\ str_count sep hi = 0.
Proof.
  induction s as [|c s IH]; cbn; [done|].
  destruct (Ascii.eqb_spec c sep) as [->|Hc]; cbn; intros Hs.
  - exists "", s. split; [done|]. split; [done|lia].
  - destruct (IH Hs) as (lo & hi & -> & Hlo & Hhi).
    exists (String c lo), hi. cbn.
    destruct (Ascii.eqb_spec c sep); [done|]. by rewrite Hlo.
Qed.

Lemma unpack2_length (parts : list string) :
  length parts <> 2 -> exists msg, unpack2 parts = Raise (ValueError msg).
Proof.
  destruct parts as [|p1 [|p2 [|p3 parts]]]; cbn; try done; by eexists.
Qed.

Lemma unpack2_not_invalid (parts : list string) :
  unpack2 parts <> Raise (ValueError "Invalid sort key").
Proof.
  destruct parts as [|p1 [|p2 [|p3 parts]]]; cbn; discriminate.
Qed.

Lemma key_condition_of_sk (pk sk : string) (operator : option string)
    (limit offset : option Z) :
  sk <> "" ->
  key_condition_of pk (Some sk) operator limit offset =
  '(key_condition, expression_values) ←
    sk_condition sk operator "pk = :pk" {[ ":pk" := AttrS pk ]};
  Ok (modifier_clause "OFFSET" offset
        (modifier_clause "LIMIT" limit key_condition),
      expression_values).
Proof.
  intros Hsk. unfold key_condition_of.
  destruct (String.eqb_spec sk ""); [done|].
  by destruct (sk_condition _ _ _ _) as [[]|].
Qed.

Section QueryProperties.
Context `{!Env}.

(** A query whose key condition cannot be built raises before it
    reaches the store. *)
Lemma DynamoDB_query_raise (pk : string) (sk operator : option string)
    (limit offset : option Z) (e : exn) (w : world) :
  key_condition_of pk sk operator limit offset = Raise e ->
  DynamoDB_query pk sk operator limit offset w = (Raise e, w).
Proof.
  intros Hcond. unfold DynamoDB_query, lift, mbind, io_bind.
  by rewrite Hcond.
Qed.

(** Otherwise it sends one request, with the condition built. *)
Lemma DynamoDB_query_sent (pk : string) (sk operator : option string)
    (limit offset : option Z) (cond : string) (vals : gmap string attr)
    (w : world) :
  key_condition_of pk sk operator limit offset = Ok (cond, vals) ->
  sent (snd (DynamoDB_query pk sk operator limit offset w)) =
  (sent w ++ [Query (DynamoDB_table_name entities) cond vals])%list.
Proof.
  intros Hcond. unfold DynamoDB_query, lift, call, mbind, io_bind.
  rewrite Hcond.
  destruct (backend _ _) as [[resp|e] st]; [|done].
  by destruct (mapM _ _).
Qed.

End QueryProperties.

Lemma sk_condition_between (sk key_condition : string)
    (expression_values : gmap string attr) :
  sk_condition sk (Some "between") key_condition expression_values =
  '(from_, to_) ← unpack2 (str_split "-" sk);
  Ok (key_condition +:+ " AND sk BETWEEN :sk0 AND :sk1",
      <[":sk1" := AttrS to_]> (<[":sk0" := AttrS from_]> expression_values)).
Proof. unfold sk_condition. by repeat case_decide. Qed.

Lemma translated_operators_cases (op : string) :
  op ∈ translated_operators <->
  op = "begins_with" \/ op = "between" \/ op ∈ ["="; ">"; "<"; ">="; "<="].
Proof. unfold translated_operators. rewrite !elem_of_cons. tauto. Qed.

Lemma declared_untranslated (op : string) :
  op ∈ Operator -> op ∉ translated_operators <-> op = "contains".
Proof.
  unfold Operator, translated_operators.
  rewrite !elem_of_cons, !elem_of_nil.
  intros Hop. split.
  - intros Hno. tauto.
  - intros ->. intros Hin.
    repeat (destruct Hin as [Hin|Hin]; [discriminate|]). done.
Qed.

(** The error of an operator that is not translated is raised for the
    operators outside [translated_operators], and for no other. *)
Lemma invalid_sort_key_iff (pk sk : string) (operator : option string)
    (limit offset : option Z) :
  sk <> "" ->
  key_condition_of pk (Some sk) operator limit offset
    = Raise (ValueError "Invalid sort key")
  <-> forall op, operator = Some op -> op ∉ translated_operators.
Proof.
  intros Hsk. rewrite key_condition_of_sk by done. unfold sk_condition.
  repeat case_decide; subst.
  - split; [done|]. intros Hno. exfalso. apply (Hno "begins_with"); [done|].
    apply translated_operators_cases. by left.
  - split.
    + destruct (unpack2 _) as [[]|e] eqn:Hunpack; cbn; [done|].
      intros [= ->]. by apply unpack2_not_invalid in Hunpack.
    + intros Hno. exfalso. apply (Hno "between"); [done|].
      apply translated_operators_cases. right. by left.
  - destruct operator as [op|]; [|done].
    case_bool_decide as Hop; cbn.
    + split; [done|]. intros Hno. exfalso. apply (Hno op); [done|].
      apply translated_operators_cases. right. by right.
    + split; [|done]. intros _ op' [= <-].
      rewrite translated_operators_cases. intros [->|[->|?]]; done.
Qed.

(** C5 as stated does not hold for every sort-key value: a value with
    more than one ["-"], such as a range of two ISO dates, is not split
    into two bounds; the query raises and no request is sent. *)
Lemma between_two_dates_raises :
  is_ok (key_condition_of "Post#U1" (Some "2024-01-01-2024-12-31")
           (Some "between") None None) = false
  /\ @DynamoDB_query tables_env "Post#U1" (Some "2024-01-01-2024-12-31")
       (Some "between") None None (start [])
     = (Raise (ValueError "too many values to unpack (expected 2)"),
        start []).
Proof. split; reflexivity. Qed.

(** C6 as stated does not hold: with a sort-key value, the declared
    operator [contains] does not pass through; the query raises the
    invalid-operator error and no request is sent. *)
Lemma contains_raises :
  "contains" ∈ Operator
  /\ @DynamoDB_query tables_env "Post#U1" (Some "blog") (Some "contains")
       None None (start [])
     = (Raise (ValueError "Invalid sort key"), start []).
Proof.
  split; [|reflexivity]. unfold Operator. rewrite !elem_of_cons. tauto.
Qed.

Section BetweenAndContains.
Context `{!Env}.

(** C5, amended. For a query with operator [between] and a non-empty
    sort-key value: when the value is [lo], one ["-"], [hi], with no ["-"]
    in [lo] or [hi] (as every value with exactly one ["-"] is), the
    condition sent is [sk BETWEEN :sk0 AND :sk1] with [:sk0] bound to [lo]
    and [:sk1] to [hi]; when the value has no ["-"], or more than one, the
    query raises a [ValueError] and sends nothing. *)
Theorem between_condition (pk sk : string) (limit offset : option Z)
    (w : world) :
  sk <> "" ->
  (forall lo hi : string,
      sk = lo +:+ "-" +:+ hi ->
      str_count "-" lo = 0 -> str_count "-" hi = 0 ->
      let cond :=
        modifier_clause "OFFSET" offset
          (modifier_clause "LIMIT" limit
             "pk = :pk AND sk BETWEEN :sk0 AND :sk1") in
      let vals : gmap string attr :=
        <[":sk1" := AttrS hi]>
          (<[":sk0" := AttrS lo]> {[ ":pk" := AttrS pk ]}) in
      key_condition_of pk (Some sk) (Some "between") limit offset
        = Ok (cond, vals)
      /\ sent (snd (DynamoDB_query pk (Some sk) (Some "between")
                     limit offset w))
         = (sent w ++ [Query (DynamoDB_table_name entities) cond vals])%list)
  /\ (str_count "-" sk = 1 ->
      exists lo hi : string,
        sk = lo +:+ "-" +:+ hi /\
        str_count "-" lo = 0 /\ str_count "-" hi = 0)
  /\ (str_count "-" sk <> 1 ->
      exists msg : string,
        DynamoDB_query pk (Some sk) (Some "between") limit offset w
        = (Raise (ValueError msg), w)).
Proof.
  intros Hsk. split_and!.
  - intros lo hi Heq Hlo Hhi cond vals.
    assert (key_condition_of pk (Some sk) (Some "between") limit offset
            = Ok (cond, vals)) as Hcond.
    { rewrite key_condition_of_sk, sk_condition_between by done.
      rewrite Heq. change ("-" +:+ hi) with (String "-" hi).
      rewrite str_split_at_sep, str_split_no_sep by done. reflexivity. }
    split; [done|]. by apply DynamoDB_query_sent.
  - apply str_count_one.
  - intros Hcount.
    destruct (unpack2_length (str_split "-" sk)) as [msg Hmsg].
    { rewrite str_split_length. lia. }
    exists msg. apply DynamoDB_query_raise.
    rewrite key_condition_of_sk, sk_condition_between by done.
    by rewrite Hmsg.
Qed.

(** C6, amended. For a query with a non-empty sort-key value, the
    operator [contains] is not translated into a sort-key condition: the
    query raises [ValueError("Invalid sort key")] and sends nothing.  The
    operator values that raise this error are those outside the translated
    set [begins_with], [between], [=], [>], [<], [>=], [<=], an absent
    operator included; of the declared operators only [contains] is
    outside it. *)
Theorem untranslated_operator_raises (pk sk : string)
    (operator : option string) (limit offset : option Z) (w : world) :
  sk <> "" ->
  (key_condition_of pk (Some sk) operator limit offset
     = Raise (ValueError "Invalid sort key")
   <-> forall op, operator = Some op -> op ∉ translated_operators)
  /\ ((forall op, operator = Some op -> op ∉ translated_operators) ->
      DynamoDB_query pk (Some sk) operator limit offset w
      = (Raise (ValueError "Invalid sort key"), w))
  /\ DynamoDB_query pk (Some sk) (Some "contains") limit offset w
     = (Raise (ValueError "Invalid sort key"), w)
  /\ (forall op, op ∈ Operator ->
      op ∉ translated_operators <-> op = "contains").
Proof.
  intros Hsk. split_and!.
  - by apply invalid_sort_key_iff.
  - intros Hno. by apply DynamoDB_query_raise, invalid_sort_key_iff.
  - apply DynamoDB_query_raise. rewrite key_condition_of_sk by done.
    reflexivity.
  - apply declared_untranslated.
Qed.

End BetweenAndContains.

Lemma between_condition_witness :
  key_condition_of "Post#U1" (Some "A-Z") (Some "between") None None
  = Ok ("pk = :pk AND sk BETWEEN :sk0 AND :sk1",
        <[":sk1" := AttrS "Z"]>
          (<[":sk0" := AttrS "A"]> {[ ":pk" := AttrS "Post#U1" ]})).
Proof.
  destruct (@between_condition tables_env "Post#U1" "A-Z" None None (start []))
    as [Hsplit _]; [discriminate|].
  exact (proj1 (Hsplit "A" "Z" eq_refl eq_refl eq_refl)).
Defined.

Lemma untranslated_operator_raises_witness :
  @DynamoDB_query tables_env "Post#U1" (Some "blog") (Some "contains")
    (Some 10%Z) None (start [])
  = (Raise (ValueError "Invalid sort key"), start []).
Proof.
  destruct (@untranslated_operator_raises tables_env "Post#U1" "blog"
              (Some "contains") (Some 10%Z) None (start []))
    as (_ & _ & Hcontains & _); [discriminate|].
  exact Hcontains.
Defined.

(** ** The table life cycle *)

Section TableLifecycle.
Context `{!Env}.

(** C7. [create_table] always returns a status message and never raises:
    the message is "created successfully" when the body of the [try] ran
    to its end, and "already exists" when it raised, whatever the
    exception; so it is for a failure of the [create_table] call, of the
    time-to-live update, or of the wait for the table. *)
Theorem create_table_never_raises (subclasses : list ModelClass)
    (w : world) :
  let table := DynaModel_table_name subclasses in
  let created := "Table " +:+ table +:+ " created successfully" in
  let exists_ := "Table " +:+ table +:+ " already exists" in
  exists (msg : string) (w' : world),
    create_table subclasses w = (Ok msg, w')
    /\ match fst (create_table_try subclasses w) with
       | Ok _ => msg = created
       | Raise _ => msg = exists_
       end
    /\ (forall e st,
          backend (CreateTable table (Some "NEW_AND_OLD_IMAGES")) (store w)
            = (Raise e, st) ->
          msg = exists_)
    /\ (forall r st e st',
          backend (CreateTable table (Some "NEW_AND_OLD_IMAGES")) (store w)
            = (Ok r, st) ->
          backend (UpdateTimeToLive table "ttl") st = (Raise e, st') ->
          msg = exists_)
    /\ (forall r st r' st' e st'',
          backend (CreateTable table (Some "NEW_AND_OLD_IMAGES")) (store w)
            = (Ok r, st) ->
          backend (UpdateTimeToLive table "ttl") st = (Ok r', st') ->
          backend (WaitUntil "table_exists" table) st' = (Raise e, st'') ->
          msg = exists_).
Proof.
  intros table created exists_.
  unfold create_table, try_except, create_table_try, call, mbind, io_bind,
    mret, io_ret. cbn. fold table.
  destruct (backend (CreateTable table _) (store w)) as [[r1|e1] st1]
    eqn:Hcreate; cbn.
  - destruct (backend (UpdateTimeToLive table "ttl") st1) as [[r2|e2] st2]
      eqn:Httl; cbn.
    + destruct (backend (WaitUntil "table_exists" table) st2)
        as [[r3|e3] st3] eqn:Hwait; cbn.
      * do 2 eexists. split; [reflexivity|].
        split_and!; intros; first [reflexivity | congruence].
      * do 2 eexists. split; [reflexivity|].
        split_and!; intros; first [reflexivity | congruence].
    + do 2 eexists. split; [reflexivity|].
      split_and!; intros; first [reflexivity | congruence].
  - do 2 eexists. split; [reflexivity|].
    split_and!; intros; first [reflexivity | congruence].
Qed.

End TableLifecycle.

(** A first call creates the table of [Task] and [Note]; a second call, on
    the table that now exists, reports it and does not raise. *)
Example create_table_twice :
  fst (@create_table tables_env [Task; Note] (start []))
    = Ok "Table Note-Task created successfully"
  /\ fst (@create_table tables_env [Task; Note] (start ["Note-Task"]))
    = Ok "Table Note-Task already exists".
Proof. split; reflexivity. Qed.

(** ** Construction *)

Section Construction.
Context `{!Env}.

(** What [__init__] does, step by step. *)
Lemma init_inv (cls : ModelClass) (kwargs : gmap string pyval)
    (self : DynaModel) :
  __init__ cls kwargs = Ok self ->
  exists (d : gmap string pyval) (pk sk : string),
    BaseModel_init cls kwargs = Ok d
    /\ pk_ {| __class__ := cls; __dict__ := d |} = Ok pk
    /\ sk_ (setattr {| __class__ := cls; __dict__ := d |} "pk" (VStr pk))
       = Ok sk
    /\ self = setattr
                (setattr {| __class__ := cls; __dict__ := d |} "pk" (VStr pk))
                "sk" (VStr sk).
Proof.
  unfold __init__. intros Hinit.
  destruct (BaseModel_init cls kwargs) as [d|] eqn:Hd; [cbn in Hinit|done].
  destruct (pk_ _) as [pk|] eqn:Hpk; [cbn in Hinit|done].
  destruct (sk_ _) as [sk|] eqn:Hsk; [cbn in Hinit|done].
  exists d, pk, sk. by simplify_eq.
Qed.

(** C9. The keys of an instance are derived once, by [__init__], and
    stored in its attributes [pk] and [sk]; assigning a new value to any
    other attribute afterwards, a key field included, leaves the stored
    [pk] and [sk] as they were, also in the dictionary that [put] writes
    to the store. *)
Theorem keys_fixed_at_construction (cls : ModelClass)
    (kwargs : gmap string pyval) (self : DynaModel) (attr : string)
    (v : pyval) :
  __init__ cls kwargs = Ok self ->
  attr <> "pk" -> attr <> "sk" ->
  exists (d : gmap string pyval) (pk sk : string),
    BaseModel_init cls kwargs = Ok d
    /\ pk_ {| __class__ := cls; __dict__ := d |} = Ok pk
    /\ sk_ (setattr {| __class__ := cls; __dict__ := d |} "pk" (VStr pk))
       = Ok sk
    /\ getattr self "pk" = Ok (VStr pk)
    /\ getattr self "sk" = Ok (VStr sk)
    /\ getattr (setattr self attr v) "pk" = Ok (VStr pk)
    /\ getattr (setattr self attr v) "sk" = Ok (VStr sk)
    /\ to_dict (setattr self attr v) !! "pk" = Some (VStr pk)
    /\ to_dict (setattr self attr v) !! "sk" = Some (VStr sk).
Proof.
  intros (d & pk & sk & Hd & Hpk & Hsk & ->)%init_inv Hnpk Hnsk.
  exists d, pk, sk. unfold getattr, to_dict, setattr. cbn.
  split_and!; try done;
    try (apply map_lookup_filter_Some; split; [|done]);
    by simplify_map_eq.
Qed.

End Construction.

(** [Task(user="U1", ...)], then [task.user = "U2"]: the stored partition
    key is still ["Task#U1"], while the key derived from the fields as
    they now are would be ["Task#U2"]. *)
Lemma keys_fixed_at_construction_witness :
  exists task : DynaModel,
    @__init__ tables_env Task (__dict__ a_task) = Ok task
    /\ getattr (setattr task "user" (VStr "U2")) "pk" = Ok (VStr "Task#U1")
    /\ getattr (setattr task "user" (VStr "U2")) "sk" = Ok (VStr "False")
    /\ pk_ (setattr task "user" (VStr "U2")) = Ok "Task#U2".
Proof.
  eexists. split; [reflexivity|].
  destruct (@keys_fixed_at_construction tables_env Task (__dict__ a_task) _
              "user" (VStr "U2") eq_refl)
    as (d & pk & sk & Hd & Hpk & Hsk & _ & _ & Hpk' & Hsk' & _);
    [discriminate..|].
  injection Hd as <-. vm_compute in Hpk, Hsk.
  injection Hpk as <-. injection Hsk as <-.
  split_and!; [exact Hpk'|exact Hsk'|reflexivity].
Defined.

(** ** The class-level operations *)

Lemma key_condition_of_pk (pk : string) (sk operator : option string)
    (limit offset : option Z) (cond : string) (vals : gmap string attr) :
  key_condition_of pk sk operator limit offset = Ok (cond, vals) ->
  vals !! ":pk" = Some (AttrS pk).
Proof.
  unfold key_condition_of, sk_condition. intros Hcond.
  destruct sk as [sk|]; [destruct (String.eqb sk "")|];
    repeat case_decide; cbn in Hcond;
    try destruct (unpack2 _) as [[]|]; cbn in Hcond;
    try destruct operator; try case_bool_decide;
    by simplify_map_eq.
Qed.

Section ClassOperations.
Context `{!Env}.

(** Building the instances from what the store returned sends nothing. *)
Lemma sent_bind_lift {A B} (m : io A) (f : A -> result B) (w : world) :
  sent (snd ((x ← m; lift (f x)) w)) = sent (snd (m w)).
Proof.
  unfold mbind, io_bind, lift. by destruct (m w) as [[a|e] w'].
Qed.

Lemma DynamoDB_get_sent (pk sk : string) (key : gmap string attr)
    (w : world) :
  item_key pk sk = Ok key ->
  sent (snd (DynamoDB_get pk sk w))
  = (sent w ++ [GetItem (DynamoDB_table_name entities) key])%list.
Proof.
  intros Hkey. unfold DynamoDB_get, lift, call, mbind, io_bind.
  rewrite Hkey. by destruct (backend _ _) as [[resp|e] st].
Qed.

Lemma DynamoDB_delete_sent (pk sk : string) (key : gmap string attr)
    (w : world) :
  item_key pk sk = Ok key ->
  sent (snd (DynamoDB_delete pk sk w))
  = (sent w ++ [DeleteItem (DynamoDB_table_name entities) key])%list.
Proof.
  intros Hkey. unfold DynamoDB_delete, lift, call, mbind, io_bind.
  rewrite Hkey. by destruct (backend _ _) as [[resp|e] st].
Qed.

(** C10. The class-level [get], [delete] and [query] of a model send the
    store a request whose partition key is the name of the class, then
    ["#"], then the [pk] the caller gave: in the [Key] of [get_item] and
    [delete_item] (as [TypeSerializer] encodes it) and as the value of
    [:pk] in the condition of [query]. *)
Theorem class_operations_prefix_pk (cls : ModelClass) (pk sk : string)
    (sk' operator : option string) (w : world) :
  let table := DynamoDB_table_name entities in
  let prefixed := (__name__ cls +:+ "#") +:+ pk in
  (forall pk_attr sk_attr : attr,
      TypeSerializer_serialize (PyStr prefixed) = Ok pk_attr ->
      TypeSerializer_serialize (PyStr sk) = Ok sk_attr ->
      let key : gmap string attr :=
        <["pk" := pk_attr]> {[ "sk" := sk_attr ]} in
      sent (snd (DynaModel_get cls pk sk w))
        = (sent w ++ [GetItem table key])%list
      /\ sent (snd (DynaModel_delete cls pk sk w))
        = (sent w ++ [DeleteItem table key])%list)
  /\ (forall (cond : string) (vals : gmap string attr),
      key_condition_of prefixed sk' operator None None = Ok (cond, vals) ->
      sent (snd (DynaModel_query cls pk sk' operator w))
        = (sent w ++ [Query table cond vals])%list
      /\ vals !! ":pk" = Some (AttrS prefixed)).
Proof.
  intros table prefixed. split.
  - intros pk_attr sk_attr Hpk Hsk key.
    assert (item_key prefixed sk = Ok key) as Hkey.
    { unfold item_key. by rewrite Hpk, Hsk. }
    split.
    + unfold DynaModel_get. rewrite sent_bind_lift.
      by apply DynamoDB_get_sent.
    + by apply DynamoDB_delete_sent.
  - intros cond vals Hcond. split.
    + unfold DynaModel_query. rewrite sent_bind_lift.
      by apply DynamoDB_query_sent.
    + by eapply key_condition_of_pk.
Qed.

End ClassOperations.

Lemma class_operations_prefix_pk_witness :
  sent (snd (@DynaModel_get tables_env Task "U1" "False" (start [])))
    = [GetItem "Post-Task-User"
         (<["pk" := AttrS "Task#U1"]> {[ "sk" := AttrS "False" ]})]
  /\ sent (snd (@DynaModel_delete tables_env Task "U1" "False" (start [])))
    = [DeleteItem "Post-Task-User"
         (<["pk" := AttrS "Task#U1"]> {[ "sk" := AttrS "False" ]})]
  /\ sent (snd (@DynaModel_query tables_env Task "U1" None None (start [])))
    = [Query "Post-Task-User" "pk = :pk" {[ ":pk" := AttrS "Task#U1" ]}].
Proof.
  destruct (@class_operations_prefix_pk tables_env Task "U1" "False" None None
              (start [])) as [Hkey Hquery].
  destruct (Hkey (AttrS "Task#U1") (AttrS "False") eq_refl eq_refl)
    as [Hget Hdelete].
  destruct (Hquery "pk = :pk" {[ ":pk" := AttrS "Task#U1" ]} eq_refl)
    as [Hsent _].
  split_and!; [exact Hget|exact Hdelete|exact Hsent].
Defined.

(** * Further properties *)

(** ** Key derivation reads the key fields only *)

Lemma pk_loop_ext (s1 s2 : DynaModel) (fields : list ModelField) :
  __class__ s1 = __class__ s2 ->
  (forall field, field ∈ fields -> extra_flag "pk" field = true ->
     __dict__ s1 !! name field = __dict__ s2 !! name field) ->
  pk_loop s1 fields = pk_loop s2 fields.
Proof.
  intros Hcls. induction fields as [|field rest IH]; intros Hsame; cbn;
    [done|].
  destruct (extra_flag "pk" field) eqn:Hflag.
  - unfold getattr. rewrite (Hsame field), Hcls by (done || left). done.
  - apply IH. intros f Hf. apply Hsame. by right.
Qed.

Lemma sk_loop_ext (s1 s2 : DynaModel) (fields : list ModelField) :
  (forall field, field ∈ fields -> extra_flag "sk" field = true ->
     __dict__ s1 !! name field = __dict__ s2 !! name field) ->
  forall keys, sk_loop s1 fields keys = sk_loop s2 fields keys.
Proof.
  induction fields as [|field rest IH]; intros Hsame keys; cbn; [done|].
  assert (forall f, f ∈ rest -> extra_flag "sk" f = true ->
            __dict__ s1 !! name f = __dict__ s2 !! name f) as Hrest.
  { intros f Hf. apply Hsame. by right. }
  destruct (extra_flag "sk" field) eqn:Hflag; [|by apply IH].
  unfold getattr. rewrite (Hsame field) by (done || left).
  destruct (__dict__ s2 !! name field); cbn; [by apply IH|done].
Qed.

Lemma contributor_name (flag : string) (cls : ModelClass) (field : ModelField) :
  field ∈ __fields__ cls -> extra_flag flag field = true ->
  name field ∈ name <$> contributors flag cls.
Proof.
  intros Hin Hflag. apply list_elem_of_fmap. exists field. split; [done|].
  unfold contributors. by apply list_elem_of_filter.
Qed.

Lemma pk_setattr (self : DynaModel) (attr : string) (v : pyval) :
  attr ∉ name <$> contributors "pk" (__class__ self) ->
  pk_ (setattr self attr v) = pk_ self.
Proof.
  intros Hattr. unfold pk_. cbn. apply pk_loop_ext; [done|].
  intros field Hin Hflag. cbn. apply lookup_insert_ne.
  intros ->. apply Hattr. by apply contributor_name.
Qed.

Lemma sk_setattr (self : DynaModel) (attr : string) (v : pyval) :
  attr ∉ name <$> contributors "sk" (__class__ self) ->
  sk_ (setattr self attr v) = sk_ self.
Proof.
  intros Hattr. unfold sk_. cbn.
  rewrite (sk_loop_ext (setattr self attr v) self); [done|].
  intros field Hin Hflag. cbn. apply lookup_insert_ne.
  intros ->. apply Hattr. by apply contributor_name.
Qed.

(** X1. The derived keys depend on the key fields only: assigning a value
    to an attribute that is not a partition-key field leaves [pk_] as it
    is, and assigning to one that is not a sort-key field leaves [sk_] as
    it is. *)
Theorem key_derivation_frame (self : DynaModel) (attr : string) (v : pyval) :
  (attr ∉ name <$> contributors "pk" (__class__ self) ->
   pk_ (setattr self attr v) = pk_ self)
  /\ (attr ∉ name <$> contributors "sk" (__class__ self) ->
      sk_ (setattr self attr v) = sk_ self).
Proof. split; [apply pk_setattr|apply sk_setattr]. Qed.

Lemma key_derivation_frame_witness :
  pk_ (setattr a_task "title" (VStr "other")) = pk_ a_task
  /\ sk_ (setattr a_task "title" (VStr "other")) = sk_ a_task.
Proof.
  destruct (key_derivation_frame a_task "title" (VStr "other")) as [Hpk Hsk].
  split; [apply Hpk|apply Hsk]; compute_done.
Defined.

(** ** Keys of different types do not collide *)

Lemma str_app_inv_head (s a b : string) : s +:+ a = s +:+ b -> a = b.
Proof. induction s as [|c s IH]; cbn; [done|]. intros [= Heq]. auto. Qed.

Lemma pk_shape (self : DynaModel) (pk : string) :
  pk_ self = Ok pk ->
  exists key, pk = __name__ (__class__ self) +:+ String "#" (key_part key).
Proof.
  unfold pk_. rewrite pk_loop_spec.
  destruct (filter _ _) as [|field ?]; [done|].
  destruct (getattr self (name field)) as [key|]; [|done].
  cbn. intros [= <-]. by exists key.
Qed.

(** X2. Instances of two types with different names never have the same
    partition key, as long as the names contain no ["#"] (no Python
    identifier does). *)
Theorem partition_keys_disjoint (self1 self2 : DynaModel) (pk1 pk2 : string) :
  pk_ self1 = Ok pk1 -> pk_ self2 = Ok pk2 ->
  str_count "#" (__name__ (__class__ self1)) = 0 ->
  str_count "#" (__name__ (__class__ self2)) = 0 ->
  __name__ (__class__ self1) <> __name__ (__class__ self2) ->
  pk1 <> pk2.
Proof.
  intros [key1 ->]%pk_shape [key2 ->]%pk_shape Hn1 Hn2 Hne Heq.
  apply (f_equal (str_split "#")) in Heq.
  rewrite !str_split_at_sep in Heq by done. by simplify_eq.
Qed.

Lemma partition_keys_disjoint_witness : "Task#U1" <> "Post#U1".
Proof.
  apply (partition_keys_disjoint a_task a_post "Task#U1" "Post#U1");
    [reflexivity..|discriminate].
Defined.

(** X16. Within one type, two instances have the same partition key
    exactly when the values of their partition-key field have the same
    string form; so the values 1 and "1", or True and "True", are one
    key. *)
Theorem partition_key_same_type (self1 self2 : DynaModel)
    (field : ModelField) (others : list ModelField) (key1 key2 : pyval) :
  __class__ self1 = __class__ self2 ->
  contributors "pk" (__class__ self1) = field :: others ->
  getattr self1 (name field) = Ok key1 ->
  getattr self2 (name field) = Ok key2 ->
  pk_ self1 = pk_ self2 <-> key_part key1 = key_part key2.
Proof.
  intros Hcls Hfield Hkey1 Hkey2. unfold pk_, contributors in *.
  rewrite !pk_loop_spec, <- Hcls, Hfield, Hkey1, Hkey2. cbn. split.
  - intros [= Heq]. by apply str_app_inv_head in Heq as [= ?].
  - by intros ->.
Qed.

Lemma partition_key_same_type_witness :
  pk_ (instance_of Task [("user", VInt 1)])
  = pk_ (instance_of Task [("user", VStr "1")]).
Proof.
  apply (partition_key_same_type (instance_of Task [("user", VInt 1)])
           (instance_of Task [("user", VStr "1")])
           (Field "user" ["pk"]) [] (VInt 1) (VStr "1")); reflexivity.
Defined.

(** ** The sort key can be taken apart again *)

(** Splitting a join gives the parts back when no part holds the
    separator. *)
Lemma str_split_concat (sep : ascii) (parts : list string) :
  parts <> [] ->
  Forall (fun part => str_count sep part = 0) parts ->
  str_split sep (String.concat (String sep "") parts) = parts.
Proof.
  induction parts as [|part [|part' rest] IH]; intros Hsome Hfree; [done|..].
  - cbn. rewrite str_split_no_sep; [done|]. by inversion Hfree.
  - inversion Hfree as [|? ? Hpart Hrest]; subst.
    change (String.concat (String sep "") (part :: part' :: rest))
      with (part +:+ String sep (String.concat (String sep "")
                                   (part' :: rest))).
    rewrite str_split_at_sep by done. f_equal. by apply IH.
Qed.

(** X3. The sort key can be decoded: when no sort-key field value holds a
    ["#"] in its string form, splitting the derived sort key on ["#"] gives
    back the string forms of the values, in declaration order. *)
Theorem sort_key_split (self : DynaModel) (sk : string)
    (values : list pyval) :
  sk_ self = Ok sk ->
  Forall2 (fun field v => getattr self (name field) = Ok v)
    (contributors "sk" (__class__ self)) values ->
  Forall (fun v => str_count "#" (key_part v) = 0) values ->
  str_split "#" sk = key_part <$> values.
Proof.
  intros Hsk Hvals Hfree.
  destruct (decide (contributors "sk" (__class__ self) = [])) as [Hnone|Hsome].
  { by rewrite sk_of_no_contributor in Hsk. }
  rewrite (sk_of_values self values) in Hsk by done.
  injection Hsk as <-. apply str_split_concat.
  - intros Hnil%fmap_nil_inv. subst. inversion Hvals. congruence.
  - by apply Forall_fmap.
Qed.

Lemma sort_key_split_witness :
  str_split "#" "blog#2024-01-01" = ["blog"; "2024-01-01"].
Proof.
  apply (sort_key_split a_post "blog#2024-01-01"
           [VStr "blog"; VStr "2024-01-01"]).
  - reflexivity.
  - vm_compute. repeat constructor.
  - repeat constructor.
Defined.

(** Without that condition two different pairs of values give one sort
    key. *)
Example sort_key_collision :
  sk_ (instance_of Post [("user", VStr "U1"); ("namespace", VStr "a#b");
                         ("created_at", VStr "c")])
  = sk_ (instance_of Post [("user", VStr "U1"); ("namespace", VStr "a");
                           ("created_at", VStr "b#c")]).
Proof. reflexivity. Qed.

(** ** What construction needs and what it establishes *)

Lemma pk_needs_contributor (self : DynaModel) (pk : string) :
  pk_ self = Ok pk -> contributors "pk" (__class__ self) <> [].
Proof.
  unfold pk_, contributors. rewrite pk_loop_spec. intros Hpk Hnone.
  by rewrite Hnone in Hpk.
Qed.

Lemma sk_needs_contributor (self : DynaModel) (sk : string) :
  sk_ self = Ok sk -> contributors "sk" (__class__ self) <> [].
Proof. intros Hsk Hnone. by rewrite sk_of_no_contributor in Hsk. Qed.

Section ConstructionMore.
Context `{!Env}.

(** X4. An instance can be constructed only of a type that declares both a
    partition-key field and a sort-key field: for any other type
    [__init__] raises, whatever the keyword arguments. *)
Theorem init_requires_key_fields (cls : ModelClass)
    (kwargs : gmap string pyval) (self : DynaModel) :
  __init__ cls kwargs = Ok self ->
  __class__ self = cls
  /\ contributors "pk" cls <> [] /\ contributors "sk" cls <> [].
Proof.
  intros (d & pk & sk & Hd & Hpk & Hsk & ->)%init_inv.
  split; [done|]. split.
  - by apply pk_needs_contributor in Hpk.
  - by apply sk_needs_contributor in Hsk.
Qed.

(** X5. Right after construction the stored keys are the derived keys:
    [pk_] and [sk_] of the new instance return what its attributes [pk]
    and [sk] hold, provided no key field is itself named [pk] or [sk]. *)
Theorem init_keys_consistent (cls : ModelClass) (kwargs : gmap string pyval)
    (self : DynaModel) :
  __init__ cls kwargs = Ok self ->
  "pk" ∉ key_field_names cls -> "sk" ∉ key_field_names cls ->
  exists pk sk : string,
    getattr self "pk" = Ok (VStr pk) /\ getattr self "sk" = Ok (VStr sk)
    /\ pk_ self = Ok pk /\ sk_ self = Ok sk.
Proof.
  intros (d & pk & sk & Hd & Hpk & Hsk & ->)%init_inv Hnpk Hnsk.
  unfold key_field_names in *. rewrite fmap_app, not_elem_of_app in Hnpk, Hnsk.
  destruct Hnpk as [Hpk_pk Hpk_sk], Hnsk as [Hsk_pk Hsk_sk].
  exists pk, sk. split_and!.
  - unfold getattr, setattr. cbn. by simplify_map_eq.
  - unfold getattr, setattr. cbn. by simplify_map_eq.
  - by rewrite !pk_setattr.
  - by rewrite sk_setattr.
Qed.

End ConstructionMore.

Lemma init_requires_key_fields_witness :
  contributors "pk" Task <> [] /\ contributors "sk" Task <> [].
Proof.
  destruct (@__init__ tables_env Task (__dict__ a_task)) as [task|] eqn:Hinit;
    [|discriminate].
  by destruct (@init_requires_key_fields tables_env Task (__dict__ a_task)
                 task Hinit) as (_ & ? & ?).
Defined.

(** A type without a sort-key field, such as [Note], has no instance. *)
Example init_Note_raises :
  @__init__ tables_env Note (__dict__ a_note)
  = Raise (ValueError "No sort key found").
Proof. reflexivity. Qed.

Lemma init_keys_consistent_witness :
  exists task : DynaModel,
    @__init__ tables_env Task (__dict__ a_task) = Ok task
    /\ pk_ task = Ok "Task#U1" /\ sk_ task = Ok "False".
Proof.
  eexists. split; [reflexivity|].
  destruct (@init_keys_consistent tables_env Task (__dict__ a_task) _ eq_refl)
    as (pk & sk & Hpk & Hsk & Hpk' & Hsk'); [compute_done..|].
  vm_compute in Hpk, Hsk. injection Hpk as <-. injection Hsk as <-.
  by split.
Defined.

(** ** Queries *)

Section QueryMore.
Context `{!Env}.

(** X6. Without a sort-key value ([None] or the empty string) the operator
    is not looked at: whatever it is, a declared one or not, the query does
    not raise and sends the condition [pk = :pk], with the limit and offset
    clauses, and the one value [:pk]. *)
Theorem query_without_sort_key (pk : string) (sk operator : option string)
    (limit offset : option Z) (w : world) :
  sk = None \/ sk = Some "" ->
  let cond :=
    modifier_clause "OFFSET" offset (modifier_clause "LIMIT" limit "pk = :pk") in
  let vals : gmap string attr := {[ ":pk" := AttrS pk ]} in
  key_condition_of pk sk operator limit offset = Ok (cond, vals)
  /\ sends (DynamoDB_query pk sk operator limit offset) w
       [Query (DynamoDB_table_name entities) cond vals].
Proof.
  intros Hsk cond vals.
  assert (key_condition_of pk sk operator limit offset = Ok (cond, vals))
    as Hcond by (by destruct Hsk as [->| ->]).
  split; [done|]. by apply DynamoDB_query_sent.
Qed.

End QueryMore.

Lemma query_without_sort_key_witness :
  key_condition_of "Post#U1" None (Some "no such operator") (Some 5%Z) None
  = Ok ("pk = :pk LIMIT 5", {[ ":pk" := AttrS "Post#U1" ]}).
Proof.
  apply (@query_without_sort_key tables_env "Post#U1" None
           (Some "no such operator") (Some 5%Z) None (start [])).
  by left.
Defined.

Lemma sk_condition_shape (sk sk' : string) (operator : option string)
    (kc cond cond' : string) (ev ev' vals vals' : gmap string attr) :
  dom ev = dom ev' ->
  sk_condition sk operator kc ev = Ok (cond, vals) ->
  sk_condition sk' operator kc ev' = Ok (cond', vals') ->
  cond = cond' /\ dom vals = dom vals'.
Proof.
  unfold sk_condition. intros Hdom.
  repeat case_decide.
  - intros [= <- <-] [= <- <-]. by rewrite !dom_insert_L, Hdom.
  - destruct (unpack2 (str_split "-" sk)) as [[lo hi]|]; [|done].
    destruct (unpack2 (str_split "-" sk')) as [[lo' hi']|]; [|done].
    cbn. intros [= <- <-] [= <- <-]. by rewrite !dom_insert_L, Hdom.
  - destruct operator as [op|]; [|done]. case_bool_decide; [|done].
    intros [= <- <-] [= <- <-]. by rewrite !dom_insert_L, Hdom.
Qed.

(** X7. The key values never enter the condition expression: two queries
    with the same operator, limit and offset, both with a sort-key value,
    build the same expression and bind the same placeholders, whatever the
    partition-key and sort-key values are; the values travel in the
    expression values only. *)
Theorem condition_independent_of_values (pk pk' sk sk' : string)
    (operator : option string) (limit offset : option Z)
    (cond cond' : string) (vals vals' : gmap string attr) :
  sk <> "" -> sk' <> "" ->
  key_condition_of pk (Some sk) operator limit offset = Ok (cond, vals) ->
  key_condition_of pk' (Some sk') operator limit offset = Ok (cond', vals') ->
  cond = cond' /\ dom vals = dom vals'.
Proof.
  intros Hsk Hsk'. rewrite !key_condition_of_sk by done.
  destruct (sk_condition sk _ _ _) as [[c v]|] eqn:Hc; [|done].
  destruct (sk_condition sk' _ _ _) as [[c' v']|] eqn:Hc'; [|done].
  cbn. intros [= <- <-] [= <- <-].
  destruct (sk_condition_shape sk sk' operator "pk = :pk" c c'
              {[ ":pk" := AttrS pk ]} {[ ":pk" := AttrS pk' ]} v v')
    as [-> Hdom]; try done.
Qed.

Lemma condition_independent_of_values_witness :
  "pk = :pk AND sk >= :sk" = "pk = :pk AND sk >= :sk"
  /\ dom (<[":sk" := AttrS "2024"]> ({[ ":pk" := AttrS "Post#U1" ]}
            : gmap string attr))
     = dom (<[":sk" := AttrS "x' OR 1=1"]> ({[ ":pk" := AttrS "Post#U2" ]}
              : gmap string attr)).
Proof.
  apply (condition_independent_of_values "Post#U1" "Post#U2" "2024"
           "x' OR 1=1" (Some ">=") None None); done.
Defined.

(** X8. The comparison operators and [begins_with]: with a non-empty
    sort-key value the condition is [pk = :pk AND sk <op> :sk], or
    [pk = :pk AND begins_with ( sk, :sk )], and the whole sort-key value is
    bound to [:sk]. *)
Theorem comparison_condition (pk sk op : string) (limit offset : option Z) :
  sk <> "" ->
  let vals : gmap string attr :=
    <[":sk" := AttrS sk]> {[ ":pk" := AttrS pk ]} in
  (op ∈ ["="; ">"; "<"; ">="; "<="] ->
   key_condition_of pk (Some sk) (Some op) limit offset
   = Ok (modifier_clause "OFFSET" offset
           (modifier_clause "LIMIT" limit
              ("pk = :pk AND sk " +:+ op +:+ " :sk")),
         vals))
  /\ key_condition_of pk (Some sk) (Some "begins_with") limit offset
     = Ok (modifier_clause "OFFSET" offset
             (modifier_clause "LIMIT" limit
                "pk = :pk AND begins_with ( sk, :sk )"),
           vals).
Proof.
  intros Hsk vals. rewrite !key_condition_of_sk by done. split.
  - intros Hop. unfold sk_condition.
    repeat case_decide; simplify_eq.
    + exfalso. revert Hop. rewrite !elem_of_cons, elem_of_nil.
      intros [?|[?|[?|[?|[?|[]]]]]]; discriminate.
    + exfalso. revert Hop. rewrite !elem_of_cons, elem_of_nil.
      intros [?|[?|[?|[?|[?|[]]]]]]; discriminate.
    + by rewrite bool_decide_eq_true_2.
  - reflexivity.
Qed.

Lemma comparison_condition_witness :
  key_condition_of "Post#U1" (Some "2024") (Some ">=") None (Some 3%Z)
  = Ok ("pk = :pk AND sk >= :sk OFFSET 3",
        <[":sk" := AttrS "2024"]> {[ ":pk" := AttrS "Post#U1" ]}).
Proof.
  apply (comparison_condition "Post#U1" "2024" ">=" None (Some 3%Z));
    [discriminate|compute_done].
Defined.

(** ** Calls to the store *)

Section StoreCalls.
Context `{!Env}.

Lemma call_raise (req : request) (e : exn) (st : St) (w : world) :
  backend req (store w) = (Raise e, st) ->
  call req w = (Raise e, {| store := st; sent := sent w ++ [req] |}).
Proof. intros Hreq. unfold call. by rewrite Hreq. Qed.

(** X9. A failure of the store is neither caught nor retried by the
    methods of [DynamoDB]: when the one request that [put], [get],
    [delete], [query] or [scan] sends is answered with an exception, the
    method raises that exception, having sent that request only. *)
Theorem store_error_propagates (w : world) (e : exn) (st : St) :
  let table := DynamoDB_table_name entities in
  let failed req := {| store := st; sent := sent w ++ [req] |} in
  (forall (instance : DynaModel) (item : gmap string attr),
      DynamoDB_serialize instance = Ok item ->
      backend (PutItem table item) (store w) = (Raise e, st) ->
      DynamoDB_put instance w = (Raise e, failed (PutItem table item)))
  /\ (forall (pk sk : string) (key : gmap string attr),
      item_key pk sk = Ok key ->
      (backend (GetItem table key) (store w) = (Raise e, st) ->
       DynamoDB_get pk sk w = (Raise e, failed (GetItem table key)))
      /\ (backend (DeleteItem table key) (store w) = (Raise e, st) ->
          DynamoDB_delete pk sk w
          = (Raise e, failed (DeleteItem table key))))
  /\ (forall (pk : string) (sk operator : option string)
        (limit offset : option Z) (cond : string)
        (vals : gmap string attr),
      key_condition_of pk sk operator limit offset = Ok (cond, vals) ->
      backend (Query table cond vals) (store w) = (Raise e, st) ->
      DynamoDB_query pk sk operator limit offset w
      = (Raise e, failed (Query table cond vals)))
  /\ (forall limit offset : option Z,
      let req := Scan table (scan_kwarg limit) (scan_kwarg offset) in
      backend req (store w) = (Raise e, st) ->
      DynamoDB_scan limit offset w = (Raise e, failed req)).
Proof.
  intros table failed. split_and!.
  - intros instance item Hitem Hreq.
    unfold DynamoDB_put, lift, mbind, io_bind.
    rewrite Hitem. fold table. by rewrite (call_raise _ e st).
  - intros pk sk key Hkey. split; intros Hreq.
    + unfold DynamoDB_get, lift, mbind, io_bind.
      rewrite Hkey. fold table. by rewrite (call_raise _ e st).
    + unfold DynamoDB_delete, lift, mbind, io_bind.
      rewrite Hkey. fold table. by rewrite (call_raise _ e st).
  - intros pk sk operator limit offset cond vals Hcond Hreq.
    unfold DynamoDB_query, lift, mbind, io_bind.
    rewrite Hcond. fold table. by rewrite (call_raise _ e st).
  - intros limit offset req Hreq.
    unfold DynamoDB_scan, lift, mbind, io_bind.
    fold table. fold req. by rewrite (call_raise _ e st).
Qed.

(** A call on the shared table, between two steps that do not touch the
    store, sends that one request or nothing. *)
Lemma one_request_call {A B} (pre : result A) (req : A -> request)
    (post : A -> response -> result B) (w : world) :
  (forall a, request_table (req a) = DynamoDB_table_name entities) ->
  one_request_on_table
    (a ← lift pre; response ← call (req a); lift (post a response)) w.
Proof.
  intros Htable. unfold one_request_on_table, sends, lift, call, mbind,
    io_bind.
  destruct pre as [a|e]; cbn.
  - exists [req a]. destruct (backend (req a) (store w)) as [[resp|e] st];
      cbn; (split_and!; [done|cbn; lia|by repeat constructor]).
  - exists []. rewrite app_nil_r. split_and!; [done|cbn; lia|constructor].
Qed.

Lemma one_request_query (pk : string) (sk operator : option string)
    (limit offset : option Z) (w : world) :
  one_request_on_table (DynamoDB_query pk sk operator limit offset) w.
Proof.
  unfold one_request_on_table, sends, DynamoDB_query, lift, call, mbind,
    io_bind.
  destruct (key_condition_of pk sk operator limit offset) as [[cond vals]|e];
    cbn.
  - exists [Query (DynamoDB_table_name entities) cond vals].
    destruct (backend _ (store w)) as [[resp|e] st];
      cbn; (split_and!; [done|cbn; lia|by repeat constructor]).
  - exists []. rewrite app_nil_r. split_and!; [done|cbn; lia|constructor].
Qed.

(** X10. Each of the methods [put], [get], [delete], [query] and [scan]
    of [DynamoDB] sends the store at most one request, and that request
    names the table shared by the registered types. *)
Theorem operations_send_one_request (instance : DynaModel)
    (pk sk : string) (sk' operator : option string) (limit offset : option Z)
    (w : world) :
  one_request_on_table (DynamoDB_put instance) w
  /\ one_request_on_table (DynamoDB_get pk sk) w
  /\ one_request_on_table (DynamoDB_delete pk sk) w
  /\ one_request_on_table (DynamoDB_query pk sk' operator limit offset) w
  /\ one_request_on_table (DynamoDB_scan limit offset) w.
Proof.
  split_and!.
  - apply (one_request_call (DynamoDB_serialize instance)
             (PutItem (DynamoDB_table_name entities))
             (fun _ _ => Ok tt)). done.
  - apply (one_request_call (item_key pk sk)
             (GetItem (DynamoDB_table_name entities))
             (fun _ response =>
                DynamoDB_deserialize (default ∅ (Item response)))). done.
  - apply (one_request_call (item_key pk sk)
             (DeleteItem (DynamoDB_table_name entities))
             (fun _ _ => Ok tt)). done.
  - apply one_request_query.
  - apply (one_request_call (Ok tt)
             (fun _ => Scan (DynamoDB_table_name entities) (scan_kwarg limit)
                         (scan_kwarg offset))
             (fun _ response =>
                mapM DynamoDB_deserialize (default [] (Items response)))).
    done.
Qed.

End StoreCalls.

Lemma store_error_propagates_witness :
  @DynamoDB_delete down_env "Task#U1" "False" down_start
  = (Raise (ClientError "ServiceUnavailable"),
     {| store := tt : @St down_env;
        sent := [DeleteItem "Post-Task-User"
                   (<["pk" := AttrS "Task#U1"]> {[ "sk" := AttrS "False" ]})] |}).
Proof.
  destruct (@store_error_propagates down_env down_start
              (ClientError "ServiceUnavailable") tt) as (_ & Hkey & _).
  destruct (Hkey "Task#U1" "False"
              (<["pk" := AttrS "Task#U1"]> {[ "sk" := AttrS "False" ]})
              eq_refl) as [_ Hdelete].
  exact (Hdelete eq_refl).
Defined.

(** ** The table life cycle, continued *)

Section TableLifecycleMore.
Context `{!Env}.

(** X11. [drop_table] never raises: it returns [True] when the deletion
    and the wait for the table to be gone both succeed, and [False] when
    either is answered with an exception, whatever the exception. *)
Theorem drop_table_result (subclasses : list ModelClass) (w : world) :
  let table := DynaModel_table_name subclasses in
  exists (b : bool) (w' : world),
    drop_table subclasses w = (Ok b, w')
    /\ (b = true <->
        exists r st r' st',
          backend (DeleteTable table) (store w) = (Ok r, st)
          /\ backend (WaitUntil "table_not_exists" table) st = (Ok r', st')).
Proof.
  intros table.
  unfold drop_table, try_except, call, mbind, io_bind, mret, io_ret. cbn.
  fold table.
  destruct (backend (DeleteTable table) (store w)) as [[r|e] st] eqn:Hdel;
    cbn.
  - destruct (backend (WaitUntil "table_not_exists" table) st)
      as [[r'|e] st'] eqn:Hwait; cbn; do 2 eexists; (split; [reflexivity|]).
    + split; [|done]. intros _. by exists r, st, r', st'.
    + split; [done|]. intros (? & ? & ? & ? & ? & ?). congruence.
  - do 2 eexists. split; [reflexivity|].
    split; [done|]. intros (? & ? & ? & ? & ? & ?). congruence.
Qed.

(** X12. The requests [create_table] sends are, in this order,
    [create_table] with a stream of new and old images, the update that
    turns on time-to-live on the attribute [ttl], and the wait for the
    table, and it stops at the first that is answered with an exception:
    after a failed creation it has sent the creation only, after a failed
    update the creation and the update, and nothing follows a failed wait.
    It reports "created successfully" after three successes and "already
    exists" in every other case, also when the table was just created and
    a later request failed. *)
Theorem create_table_requests (subclasses : list ModelClass) (w : world) :
  let table := DynaModel_table_name subclasses in
  let creation := CreateTable table (Some "NEW_AND_OLD_IMAGES") in
  let ttl := UpdateTimeToLive table "ttl" in
  let wait := WaitUntil "table_exists" table in
  let created := "Table " +:+ table +:+ " created successfully" in
  let exists_ := "Table " +:+ table +:+ " already exists" in
  (forall e st,
      backend creation (store w) = (Raise e, st) ->
      create_table subclasses w
      = (Ok exists_, {| store := st; sent := sent w ++ [creation] |}))
  /\ (forall r st e st',
      backend creation (store w) = (Ok r, st) ->
      backend ttl st = (Raise e, st') ->
      create_table subclasses w
      = (Ok exists_, {| store := st'; sent := sent w ++ [creation; ttl] |}))
  /\ (forall r st r' st' e st'',
      backend creation (store w) = (Ok r, st) ->
      backend ttl st = (Ok r', st') ->
      backend wait st' = (Raise e, st'') ->
      create_table subclasses w
      = (Ok exists_,
         {| store := st''; sent := sent w ++ [creation; ttl; wait] |}))
  /\ (forall r st r' st' r'' st'',
      backend creation (store w) = (Ok r, st) ->
      backend ttl st = (Ok r', st') ->
      backend wait st' = (Ok r'', st'') ->
      create_table subclasses w
      = (Ok created,
         {| store := st''; sent := sent w ++ [creation; ttl; wait] |})).
Proof.
  intros table creation ttl wait created exists_.
  unfold create_table, try_except, create_table_try, call, mbind, io_bind,
    mret, io_ret. cbn. fold table. fold creation ttl wait created exists_.
  split_and!.
  - intros e st Hcreation. by rewrite Hcreation.
  - intros r st e st' Hcreation Httl. rewrite Hcreation. cbn.
    rewrite Httl. cbn. by rewrite <- app_assoc.
  - intros r st r' st' e st'' Hcreation Httl Hwait. rewrite Hcreation. cbn.
    rewrite Httl. cbn. rewrite Hwait. cbn. by rewrite <- !app_assoc.
  - intros r st r' st' r'' st'' Hcreation Httl Hwait. rewrite Hcreation. cbn.
    rewrite Httl. cbn. rewrite Hwait. cbn. by rewrite <- !app_assoc.
Qed.

End TableLifecycleMore.

Lemma create_table_requests_witness :
  @create_table tables_env [Task; Note] (start ["Note-Task"])
  = (Ok "Table Note-Task already exists",
     {| store := ["Note-Task"] : @St tables_env;
        sent := [CreateTable "Note-Task" (Some "NEW_AND_OLD_IMAGES")] |})
  /\ sent (snd (@create_table tables_env [Task; Note] (start [])))
     = [CreateTable "Note-Task" (Some "NEW_AND_OLD_IMAGES");
        UpdateTimeToLive "Note-Task" "ttl";
        WaitUntil "table_exists" "Note-Task"].
Proof.
  destruct (@create_table_requests tables_env [Task; Note]
              (start ["Note-Task"])) as (Hfailed & _).
  destruct (@create_table_requests tables_env [Task; Note] (start []))
    as (_ & _ & _ & Hcreated).
  split.
  - exact (Hfailed (ClientError "ResourceInUseException") ["Note-Task"]
             eq_refl).
  - by rewrite (Hcreated no_response ["Note-Task"] no_response ["Note-Task"]
                  no_response ["Note-Task"] eq_refl eq_refl eq_refl).
Defined.

(** Dropping the table of [Task] and [Note] succeeds when it exists and
    reports [False] when it does not. *)
Example drop_table_twice :
  fst (@drop_table tables_env [Task; Note] (start ["Note-Task"])) = Ok true
  /\ fst (@drop_table tables_env [Task; Note] (start [])) = Ok false.
Proof. split; reflexivity. Qed.

Section CreateAllProperties.
Context `{!Env}.

(** X13. [create_all] looks before it creates: when the table is among the
    tables listed it sends nothing more and returns; when it is not, it
    sends [create_table], without a stream or time-to-live, and then waits
    for the table.  Unlike [create_table] of the models it lets a failure of
    the creation through. *)
Theorem create_all_probe (list_tables : io (list string)) (table : string)
    (tables : list string) (w w1 : world) :
  list_tables w = (Ok tables, w1) ->
  (table ∈ tables -> create_all list_tables table w = (Ok tt, w1))
  /\ (table ∉ tables ->
      forall e st,
        backend (CreateTable table None) (store w1) = (Raise e, st) ->
        create_all list_tables table w
        = (Raise e,
           {| store := st; sent := sent w1 ++ [CreateTable table None] |}))
  /\ (table ∉ tables ->
      forall r st,
        backend (CreateTable table None) (store w1) = (Ok r, st) ->
        sent (snd (create_all list_tables table w))
        = (sent w1 ++ [CreateTable table None;
                       WaitUntil "table_exists" table])%list).
Proof.
  intros Hlist. unfold create_all, mbind, io_bind. rewrite Hlist.
  split_and!.
  - intros Hin. by rewrite bool_decide_eq_true_2.
  - intros Hnin e st Hreq. rewrite bool_decide_eq_false_2 by done.
    unfold call. by rewrite Hreq.
  - intros Hnin r st Hreq. rewrite bool_decide_eq_false_2 by done.
    unfold call. rewrite Hreq. cbn.
    destruct (backend (WaitUntil "table_exists" table) st) as [[r'|e] st'];
      cbn; by rewrite <- app_assoc.
Qed.

End CreateAllProperties.

Lemma create_all_probe_witness :
  @create_all tables_env tables_list "Note-Task" (start ["Note-Task"])
  = (Ok tt, start ["Note-Task"])
  /\ sent (snd (@create_all tables_env tables_list "Note-Task" (start [])))
     = [CreateTable "Note-Task" None; WaitUntil "table_exists" "Note-Task"].
Proof.
  destruct (@create_all_probe tables_env tables_list "Note-Task"
              ["Note-Task"] (start ["Note-Task"]) (start ["Note-Task"])
              eq_refl) as (Hthere & _ & _).
  destruct (@create_all_probe tables_env tables_list "Note-Task" []
              (start []) (start []) eq_refl) as (_ & _ & Hnew).
  split.
  - apply Hthere. compute_done.
  - apply (Hnew ltac:(compute_done) no_response ["Note-Task"] eq_refl).
Defined.

(** ** The lazy proxy *)

(** X14. A [LazyProxy] loads at most once: after [__get_proxied__] has
    returned an object, every later call returns that object and does not
    run [__load__] again, whatever state the loader is in; an object given
    to [__set_proxied__] is returned without loading at all.  A load that
    returns [None] is not remembered. *)
Theorem lazy_proxy_loads_once {T L : Type} (__load__ : L -> option T * L)
    (self : LazyProxy T) :
  (forall (l l' : L) (p : T) (self' : LazyProxy T),
      __get_proxied__ __load__ self l = (Some p, self', l') ->
      forall l'' : L,
        __get_proxied__ __load__ self' l'' = (Some p, self', l''))
  /\ (forall (v : T) (l : L),
      __get_proxied__ __load__ (__set_proxied__ self (Some v)) l
      = (Some v, __set_proxied__ self (Some v), l))
  /\ (forall l l' : L,
      __load__ l = (None, l') ->
      __get_proxied__ __load__ LazyProxy_init l = (None, LazyProxy_init, l')).
Proof.
  split_and!.
  - intros l l' p self' Hget l''. unfold __get_proxied__ in *.
    destruct (proxied self) as [q|] eqn:Hself.
    + simplify_eq. by rewrite Hself.
    + destruct (__load__ l) as [p0 l0]. by simplify_eq.
  - done.
  - intros l l' Hload. unfold __get_proxied__. cbn. by rewrite Hload.
Qed.

Lemma lazy_proxy_loads_once_witness :
  __get_proxied__ counting_load {| proxied := Some 0 |} 7
  = (Some 0, {| proxied := Some 0 |}, 7).
Proof.
  destruct (lazy_proxy_loads_once counting_load (@LazyProxy_init nat))
    as [Honce _].
  apply (Honce 0 1 0). reflexivity.
Defined.

(** ** A caller: [delete_post] of [main.py] *)

Lemma Post_contributors :
  contributors "pk" Post = [Field "user" ["pk"]]
  /\ contributors "sk" Post
     = [Field "namespace" ["sk"]; Field "created_at" ["sk"]].
Proof. split; reflexivity. Qed.

Section DeletePost.
Context `{!Env}.

(** X15. [delete_post] deletes the item a post was written under: for a
    [Post] whose [user], [namespace] and [created_at] are strings, the last
    two without a comma, the handler called with the user and with
    [namespace], a comma, [created_at] sends [delete_item] with the
    partition key and the sort key derived for that post. *)
Theorem delete_post_key (post : DynaModel)
    (user namespace created_at : string) (key : gmap string attr)
    (w : world) :
  __class__ post = Post ->
  getattr post "user" = Ok (VStr user) ->
  getattr post "namespace" = Ok (VStr namespace) ->
  getattr post "created_at" = Ok (VStr created_at) ->
  str_count "," namespace = 0 -> str_count "," created_at = 0 ->
  item_key ("Post#" +:+ user) (namespace +:+ "#" +:+ created_at) = Ok key ->
  pk_ post = Ok ("Post#" +:+ user)
  /\ sk_ post = Ok (namespace +:+ "#" +:+ created_at)
  /\ sends (delete_post user (namespace +:+ "," +:+ created_at)) w
       [DeleteItem (DynamoDB_table_name entities) key].
Proof.
  intros Hcls Huser Hns Hcreated Hfree1 Hfree2 Hkey.
  destruct Post_contributors as [Hpk Hsk]. split_and!.
  - unfold pk_. rewrite pk_loop_spec. fold (contributors "pk" (__class__ post)).
    rewrite Hcls, Hpk. cbn [name Field]. by rewrite Huser.
  - rewrite (sk_of_values post [VStr namespace; VStr created_at]).
    + done.
    + by rewrite Hcls, Hsk.
    + rewrite Hcls, Hsk. by repeat constructor.
  - unfold sends, delete_post, DynaModel_delete.
    change ("," +:+ created_at) with (String "," created_at).
    rewrite str_split_at_sep, str_split_no_sep by done.
    by apply DynamoDB_delete_sent.
Qed.

End DeletePost.

Lemma delete_post_key_witness :
  sent (snd (@delete_post tables_env "U1" "blog,2024-01-01" (start [])))
  = [DeleteItem "Post-Task-User"
       (<["pk" := AttrS "Post#U1"]> {[ "sk" := AttrS "blog#2024-01-01" ]})].
Proof.
  exact (proj2 (proj2
           (@delete_post_key tables_env a_post "U1" "blog" "2024-01-01"
              (<["pk" := AttrS "Post#U1"]>
                 {[ "sk" := AttrS "blog#2024-01-01" ]})
              (start []) eq_refl eq_refl eq_refl eq_refl eq_refl eq_refl
              eq_refl))).
Defined.
